(** * Dietary Reference Intake outlines: a shallow embedding

    The development follows [nutritional_guidelines.py] (and the copy of
    [calc_EER] in [utils.py], whose body is the same): the Estimated Energy
    Requirement calculator, the thirty-three nutrient outline generators and
    the aggregator [generate_nutritional_guideline].

    Numbers.  Python's [int] and [float] values are modelled by exact
    rationals ([Q]): arithmetic is the arithmetic of the reals, [round] is
    Python's round-half-to-even.  Binary64 rounding error, infinities and NaN
    are outside this model; where they decide a property, the code is
    evaluated on the machine's floats (module [Binary64]), and statements
    about the rational model are limited to numbers within the binary64
    range.

    Strings.  [gender] and [activity_level] are Python strings, and are
    strings here; the membership tests of the validation code are kept.

    Control.  A call either returns a value, raises an exception, or runs
    past the last [return] of the code that is modelled ([FallThrough], which
    [calc_EER] is shown never to do). *)

From Stdlib Require Import ZArith QArith Qround String List Bool Lia Lqa Morphisms.
From Stdlib Require PrimFloat FloatOps SpecFloat.
Import ListNotations.

Open Scope string_scope.
Open Scope Q_scope.

(** ** Python values and control *)

Inductive exn : Type :=
| ValueError (msg : string)
| KeyError (key : string).

Inductive result (A : Type) : Type :=
| Return (v : A)
| Raise (e : exn)
| FallThrough.

Arguments Return {A} v.
Arguments Raise {A} e.
Arguments FallThrough {A}.

Definition bind {A B : Type} (c : result A) (k : A -> result B) : result B :=
  match c with
  | Return v => k v
  | Raise e => Raise e
  | FallThrough => FallThrough
  end.

Notation "x <- c1 ;; c2" := (bind c1 (fun x => c2))
  (at level 61, c1 at next level, right associativity).
Notation "c1 ;; c2" := (bind c1 (fun _ => c2))
  (at level 61, right associativity).

(** [if c: raise e] as a statement. *)
Definition raise_if (c : bool) (e : exn) : result unit :=
  if c then Raise e else Return tt.

(** Comparison operators on numbers. *)
Definition Qlt_bool (x y : Q) : bool := negb (Qle_bool y x).

Notation "x <=? y" := (Qle_bool x y) (at level 70, no associativity) : Q_scope.
Notation "x <? y" := (Qlt_bool x y) (at level 70, no associativity) : Q_scope.
Notation "x >=? y" := (Qle_bool y x) (at level 70, no associativity, only parsing) : Q_scope.
Notation "x >? y" := (Qlt_bool y x) (at level 70, no associativity, only parsing) : Q_scope.

(** [x in l] for a list of strings. *)
Fixpoint str_in (x : string) (l : list string) : bool :=
  match l with
  | [] => false
  | y :: l' => String.eqb x y || str_in x l'
  end.

(** [max(a, b)] and [min(a, b)]: the first argument is kept unless the
    second is strictly larger (smaller). *)
Definition py_max (a b : Q) : Q := if a <? b then b else a.
Definition py_min (a b : Q) : Q := if b <? a then b else a.

(** The nearest integer, ties to the even one. *)
Definition round_half_even (x : Q) : Z :=
  let f := Qfloor x in
  match ((x - inject_Z f) ?= (1 # 2))%Q with
  | Lt => f
  | Gt => (f + 1)%Z
  | Eq => if Z.even f then f else (f + 1)%Z
  end.

(** [round(x)] and [round(x, 1)]. *)
Definition round (x : Q) : Q := inject_Z (round_half_even x).
Definition round1 (x : Q) : Q := inject_Z (round_half_even (x * 10)) / 10.

(** [d[k]] for a dict literal with string keys. *)
Fixpoint dict_get {A : Type} (d : list (string * A)) (k : string) : result A :=
  match d with
  | [] => Raise (KeyError k)
  | (k', v) :: d' => if String.eqb k k' then Return v else dict_get d' k
  end.

(** ** Estimated Energy Requirement *)

Definition activity_levels : list string :=
  ["inactive"; "low_active"; "active"; "very_active"].

Definition genders : list string := ["M"; "F"].

(** The equations of the branch [14 <= age < 19]
    ("Adolescents (14-18.99 years)"): gender, then activity level. *)
Definition adolescent_EER (age height weight : Q) (gender activity_level : string)
  : result Q :=
  if String.eqb gender "M" then
    if String.eqb activity_level "inactive" then
      Return (-447.51 + (3.68 * age) + (13.01 * height) + (13.15 * weight) + 20)
    else if String.eqb activity_level "low_active" then
      Return (19.12 + (3.68 * age) + (8.62 * height) + (20.28 * weight) + 20)
    else if String.eqb activity_level "active" then
      Return (-388.19 + (3.68 * age) + (12.66 * height) + (20.46 * weight) + 20)
    else if String.eqb activity_level "very_active" then
      Return (-671.75 + (3.68 * age) + (15.38 * height) + (23.25 * weight) + 20)
    else FallThrough
  else if String.eqb gender "F" then
    if String.eqb activity_level "inactive" then
      Return (55.59 - (22.25 * age) + (8.43 * height) + (17.07 * weight) + 20)
    else if String.eqb activity_level "low_active" then
      Return (-297.54 - (22.25 * age) + (12.77 * height) + (14.73 * weight) + 20)
    else if String.eqb activity_level "active" then
      Return (-189.55 - (22.25 * age) + (11.74 * height) + (18.34 * weight) + 20)
    else if String.eqb activity_level "very_active" then
      Return (-709.59 - (22.25 * age) + (18.22 * height) + (14.25 * weight) + 20)
    else FallThrough
  else FallThrough.

(** The equations of the [else] branch ("Adults (19+ years)"). *)
Definition adult_EER (age height weight : Q) (gender activity_level : string)
  : result Q :=
  if String.eqb gender "M" then
    if String.eqb activity_level "inactive" then
      Return (753.07 - (10.83 * age) + (6.50 * height) + (14.10 * weight))
    else if String.eqb activity_level "low_active" then
      Return (581.47 - (10.83 * age) + (8.30 * height) + (14.94 * weight))
    else if String.eqb activity_level "active" then
      Return (1004.82 - (10.83 * age) + (6.52 * height) + (15.91 * weight))
    else if String.eqb activity_level "very_active" then
      Return (-517.88 - (10.83 * age) + (15.61 * height) + (19.11 * weight))
    else FallThrough
  else if String.eqb gender "F" then
    if String.eqb activity_level "inactive" then
      Return (584.90 - (7.01 * age) + (5.72 * height) + (11.71 * weight))
    else if String.eqb activity_level "low_active" then
      Return (575.77 - (7.01 * age) + (6.60 * height) + (12.14 * weight))
    else if String.eqb activity_level "active" then
      Return (710.25 - (7.01 * age) + (6.54 * height) + (12.34 * weight))
    else if String.eqb activity_level "very_active" then
      Return (511.83 - (7.01 * age) + (9.07 * height) + (12.56 * weight))
    else FallThrough
  else FallThrough.

(** [calc_EER]: the three checks, then the age band.  In
    [nutritional_guidelines.py] a vitamin A table follows the equations
    inside the function body; it can only be reached by running past every
    [return], which is [FallThrough] here. *)
Definition calc_EER (age height weight : Q) (gender activity_level : string)
  : result Q :=
  raise_if (negb (age >=? 14))
    (ValueError "Age must be at least 14 years") ;;
  raise_if (negb (str_in gender genders))
    (ValueError "Gender must be 'M' for male or 'F' for female") ;;
  raise_if (negb (str_in activity_level activity_levels))
    (ValueError "Activity level must be one of: 'inactive', 'low_active', 'active', 'very_active'") ;;
  if (14 <=? age) && (age <? 19)
  then adolescent_EER age height weight gender activity_level
  else adult_EER age height weight gender activity_level.

(** ** Nutrient outlines *)

Record outline : Type := {
  recommended_intake : Q;
  lower_limit : Q;
  upper_limit : Q;
  units : string
}.

(** Item assignment on the outline dict. *)
Definition set_recommended_intake (o : outline) (v : Q) : outline :=
  {| recommended_intake := v; lower_limit := lower_limit o;
     upper_limit := upper_limit o; units := units o |}.

Definition set_lower_limit (o : outline) (v : Q) : outline :=
  {| recommended_intake := recommended_intake o; lower_limit := v;
     upper_limit := upper_limit o; units := units o |}.

Definition set_upper_limit (o : outline) (v : Q) : outline :=
  {| recommended_intake := recommended_intake o; lower_limit := lower_limit o;
     upper_limit := v; units := units o |}.

(** The two assignments of a band of the reference table:
    [o['recommended_intake'] = r; o['lower_limit'] = l]. *)
Definition set_base (o : outline) (r l : Q) : outline :=
  set_lower_limit (set_recommended_intake o r) l.

(** The outline each generator starts from. *)
Definition empty_outline (u : string) : outline :=
  {| recommended_intake := 0; lower_limit := 0; upper_limit := 0; units := u |}.

(** The input validation every outline generator starts with. *)
Definition validate_inputs (age : Q) (gender activity_level : string) (eer : Q)
  : result unit :=
  raise_if (negb (age >=? 14))
    (ValueError "Age must be at least 14 years") ;;
  raise_if (negb (str_in gender genders))
    (ValueError "Gender must be 'M' for male or 'F' for female") ;;
  raise_if (negb (str_in activity_level activity_levels))
    (ValueError "Activity level must be one of: 'inactive', 'low_active', 'active', 'very_active'") ;;
  raise_if (negb (eer >? 0))
    (ValueError "EER must be a positive value").

(** [2500 if gender == 'M' else 2000] *)
Definition reference_eer (gender : string) : Q :=
  if String.eqb gender "M" then 2500 else 2000.

(** *** Macronutrients *)

Definition generate_carbohydrates_outline
  (age : Q) (gender activity_level : string) (eer : Q) : result outline :=
  validate_inputs age gender activity_level eer ;;
  let carbs_outline :=
    {| recommended_intake := round (0.55 * eer / 4);
       lower_limit := round (0.45 * eer / 4);
       upper_limit := round (0.65 * eer / 4);
       units := "g" |} in
  Return carbs_outline.

Definition fiber_activity_multipliers : list (string * Q) :=
  [("inactive", 0.95); ("low_active", 1.0); ("active", 1.1); ("very_active", 1.2)].

Definition generate_fiber_outline
  (age : Q) (gender activity_level : string) (eer : Q) : result outline :=
  validate_inputs age gender activity_level eer ;;
  let fiber_outline := empty_outline "g" in
  let fiber_outline :=
    if (14 <=? age) && (age <=? 18) then
      if String.eqb gender "M" then set_base fiber_outline 38 30
      else set_base fiber_outline 26 21
    else
      if String.eqb gender "M" then
        let fiber_outline := set_base fiber_outline 30 24 in
        if age >? 50 then set_base fiber_outline 21 17 else fiber_outline
      else
        let fiber_outline := set_base fiber_outline 21 17 in
        if age >? 50 then set_base fiber_outline 14 11 else fiber_outline in
  m <- dict_get fiber_activity_multipliers activity_level ;;
  let fiber_outline := set_recommended_intake fiber_outline (recommended_intake fiber_outline * m) in
  let eer_based_fiber := (eer / 1000) * 14 in
  let fiber_outline := set_recommended_intake fiber_outline (py_max (recommended_intake fiber_outline) eer_based_fiber) in
  let fiber_outline := set_recommended_intake fiber_outline (round (recommended_intake fiber_outline)) in
  let fiber_outline := set_upper_limit fiber_outline (round (1.5 * recommended_intake fiber_outline)) in
  Return fiber_outline.

Definition protein_activity_multipliers : list (string * Q) :=
  [("inactive", 1.0); ("low_active", 1.1); ("active", 1.3); ("very_active", 1.5)].

Definition generate_protein_outline
  (age : Q) (gender activity_level : string) (eer : Q) : result outline :=
  validate_inputs age gender activity_level eer ;;
  let protein_outline := empty_outline "g" in
  let protein_outline :=
    if (14 <=? age) && (age <=? 18) then
      if String.eqb gender "M" then set_base protein_outline 52 43
      else set_base protein_outline 46 38
    else
      if String.eqb gender "M" then set_base protein_outline 56 46
      else set_base protein_outline 46 38 in
  m <- dict_get protein_activity_multipliers activity_level ;;
  let protein_outline := set_recommended_intake protein_outline (recommended_intake protein_outline * m) in
  let eer_adjustment := py_min 1.2 (py_max 0.9 (eer / reference_eer gender)) in
  let protein_outline := set_recommended_intake protein_outline (recommended_intake protein_outline * eer_adjustment) in
  let protein_outline := set_recommended_intake protein_outline (round (recommended_intake protein_outline)) in
  let estimated_weight := if String.eqb gender "M" then 70 else 57 in
  let estimated_weight :=
    if (14 <=? age) && (age <=? 18)
    then (if String.eqb gender "M" then 60 else 50)
    else estimated_weight in
  let protein_outline := set_upper_limit protein_outline (round (2.0 * estimated_weight)) in
  let protein_outline := set_upper_limit protein_outline (py_max (upper_limit protein_outline) (2 * recommended_intake protein_outline)) in
  Return protein_outline.

Definition generate_fat_outline
  (age : Q) (gender activity_level : string) (eer : Q) : result outline :=
  validate_inputs age gender activity_level eer ;;
  let fat_outline :=
    {| recommended_intake := round (0.275 * eer / 9);
       lower_limit := round (0.2 * eer / 9);
       upper_limit := round (0.35 * eer / 9);
       units := "g" |} in
  Return fat_outline.

(** *** Vitamins *)

Definition vitamin_a_activity_multipliers : list (string * Q) :=
  [("inactive", 1.0); ("low_active", 1.03); ("active", 1.06); ("very_active", 1.1)].

Definition generate_vitamin_a_outline
  (age : Q) (gender activity_level : string) (eer : Q) : result outline :=
  validate_inputs age gender activity_level eer ;;
  let vitamin_a_outline := empty_outline "mcg" in
  let vitamin_a_outline :=
    if (14 <=? age) && (age <=? 18) then
      if String.eqb gender "M" then set_base vitamin_a_outline 900 630
      else set_base vitamin_a_outline 700 485
    else
      if String.eqb gender "M" then set_base vitamin_a_outline 900 625
      else set_base vitamin_a_outline 700 500 in
  m <- dict_get vitamin_a_activity_multipliers activity_level ;;
  let vitamin_a_outline := set_recommended_intake vitamin_a_outline (recommended_intake vitamin_a_outline * m) in
  let eer_adjustment := py_min 1.15 (py_max 0.85 (eer / reference_eer gender)) in
  let vitamin_a_outline := set_recommended_intake vitamin_a_outline (recommended_intake vitamin_a_outline * eer_adjustment) in
  let vitamin_a_outline := set_recommended_intake vitamin_a_outline (round (recommended_intake vitamin_a_outline)) in
  let vitamin_a_outline :=
    if (14 <=? age) && (age <=? 18) then set_upper_limit vitamin_a_outline 2800
    else set_upper_limit vitamin_a_outline 3000 in
  let vitamin_a_outline := set_recommended_intake vitamin_a_outline (round (recommended_intake vitamin_a_outline)) in
  let vitamin_a_outline := set_lower_limit vitamin_a_outline (round (lower_limit vitamin_a_outline)) in
  let vitamin_a_outline := set_upper_limit vitamin_a_outline (round (upper_limit vitamin_a_outline)) in
  Return vitamin_a_outline.

Definition vitamin_c_activity_multipliers : list (string * Q) :=
  [("inactive", 1.0); ("low_active", 1.05); ("active", 1.1); ("very_active", 1.15)].

Definition generate_vitamin_c_outline
  (age : Q) (gender activity_level : string) (eer : Q) : result outline :=
  validate_inputs age gender activity_level eer ;;
  let vitamin_c_outline := empty_outline "mg" in
  let vitamin_c_outline :=
    if (14 <=? age) && (age <=? 18) then
      if String.eqb gender "M" then set_base vitamin_c_outline 75 63
      else set_base vitamin_c_outline 65 56
    else
      if String.eqb gender "M" then set_base vitamin_c_outline 90 75
      else set_base vitamin_c_outline 75 60 in
  m <- dict_get vitamin_c_activity_multipliers activity_level ;;
  let vitamin_c_outline := set_recommended_intake vitamin_c_outline (recommended_intake vitamin_c_outline * m) in
  let eer_adjustment := py_min 1.1 (py_max 0.9 (eer / reference_eer gender)) in
  let vitamin_c_outline := set_recommended_intake vitamin_c_outline (recommended_intake vitamin_c_outline * eer_adjustment) in
  let vitamin_c_outline := set_recommended_intake vitamin_c_outline (round (recommended_intake vitamin_c_outline)) in
  let vitamin_c_outline :=
    if (14 <=? age) && (age <=? 18) then set_upper_limit vitamin_c_outline 1800
    else set_upper_limit vitamin_c_outline 2000 in
  Return vitamin_c_outline.

Definition vitamin_d_activity_multipliers : list (string * Q) :=
  [("inactive", 1.0); ("low_active", 1.05); ("active", 1.1); ("very_active", 1.15)].

Definition generate_vitamin_d_outline
  (age : Q) (gender activity_level : string) (eer : Q) : result outline :=
  validate_inputs age gender activity_level eer ;;
  let vitamin_d_outline := empty_outline "mcg" in
  let vitamin_d_outline :=
    if (14 <=? age) && (age <=? 70) then set_base vitamin_d_outline 15 10
    else set_base vitamin_d_outline 20 10 in
  m <- dict_get vitamin_d_activity_multipliers activity_level ;;
  let vitamin_d_outline := set_recommended_intake vitamin_d_outline (recommended_intake vitamin_d_outline * m) in
  let eer_adjustment := py_min 1.1 (py_max 0.95 (eer / reference_eer gender)) in
  let vitamin_d_outline := set_recommended_intake vitamin_d_outline (recommended_intake vitamin_d_outline * eer_adjustment) in
  let vitamin_d_outline := set_recommended_intake vitamin_d_outline (round (recommended_intake vitamin_d_outline)) in
  let vitamin_d_outline :=
    if (14 <=? age) && (age <=? 18) then set_upper_limit vitamin_d_outline 100
    else set_upper_limit vitamin_d_outline 100 in
  Return vitamin_d_outline.

Definition vitamin_b6_activity_multipliers : list (string * Q) :=
  [("inactive", 1.0); ("low_active", 1.03); ("active", 1.07); ("very_active", 1.1)].

Definition generate_vitamin_b6_outline
  (age : Q) (gender activity_level : string) (eer : Q) : result outline :=
  validate_inputs age gender activity_level eer ;;
  let vitamin_b6_outline := empty_outline "mg" in
  let vitamin_b6_outline :=
    if (14 <=? age) && (age <=? 18) then
      if String.eqb gender "M" then set_base vitamin_b6_outline 1.3 1.1
      else set_base vitamin_b6_outline 1.2 1.0
    else if (19 <=? age) && (age <=? 50) then
      if String.eqb gender "M" then set_base vitamin_b6_outline 1.3 1.1
      else set_base vitamin_b6_outline 1.3 1.1
    else
      if String.eqb gender "M" then set_base vitamin_b6_outline 1.7 1.4
      else set_base vitamin_b6_outline 1.5 1.3 in
  m <- dict_get vitamin_b6_activity_multipliers activity_level ;;
  let vitamin_b6_outline := set_recommended_intake vitamin_b6_outline (recommended_intake vitamin_b6_outline * m) in
  let eer_adjustment := py_min 1.05 (py_max 0.95 (eer / reference_eer gender)) in
  let vitamin_b6_outline := set_recommended_intake vitamin_b6_outline (recommended_intake vitamin_b6_outline * eer_adjustment) in
  let vitamin_b6_outline := set_recommended_intake vitamin_b6_outline (round1 (recommended_intake vitamin_b6_outline)) in
  let vitamin_b6_outline := set_upper_limit vitamin_b6_outline 100 in
  Return vitamin_b6_outline.

Definition vitamin_e_activity_multipliers : list (string * Q) :=
  [("inactive", 1.0); ("low_active", 1.03); ("active", 1.07); ("very_active", 1.1)].

Definition generate_vitamin_e_outline
  (age : Q) (gender activity_level : string) (eer : Q) : result outline :=
  validate_inputs age gender activity_level eer ;;
  let vitamin_e_outline := empty_outline "mg" in
  let vitamin_e_outline :=
    if (14 <=? age) && (age <=? 18) then set_base vitamin_e_outline 15 12
    else set_base vitamin_e_outline 15 12 in
  m <- dict_get vitamin_e_activity_multipliers activity_level ;;
  let vitamin_e_outline := set_recommended_intake vitamin_e_outline (recommended_intake vitamin_e_outline * m) in
  let eer_adjustment := py_min 1.05 (py_max 0.95 (eer / reference_eer gender)) in
  let vitamin_e_outline := set_recommended_intake vitamin_e_outline (recommended_intake vitamin_e_outline * eer_adjustment) in
  let vitamin_e_outline := set_recommended_intake vitamin_e_outline (round1 (recommended_intake vitamin_e_outline)) in
  let vitamin_e_outline := set_upper_limit vitamin_e_outline 1000 in
  Return vitamin_e_outline.

Definition vitamin_k_activity_multipliers : list (string * Q) :=
  [("inactive", 1.0); ("low_active", 1.02); ("active", 1.04); ("very_active", 1.05)].

Definition generate_vitamin_k_outline
  (age : Q) (gender activity_level : string) (eer : Q) : result outline :=
  validate_inputs age gender activity_level eer ;;
  let vitamin_k_outline := empty_outline "mcg" in
  let vitamin_k_outline :=
    if (14 <=? age) && (age <=? 18) then
      if String.eqb gender "M" then set_base vitamin_k_outline 75 60
      else set_base vitamin_k_outline 75 60
    else
      if String.eqb gender "M" then set_base vitamin_k_outline 120 96
      else set_base vitamin_k_outline 90 72 in
  m <- dict_get vitamin_k_activity_multipliers activity_level ;;
  let vitamin_k_outline := set_recommended_intake vitamin_k_outline (recommended_intake vitamin_k_outline * m) in
  let eer_adjustment := py_min 1.03 (py_max 0.97 (eer / reference_eer gender)) in
  let vitamin_k_outline := set_recommended_intake vitamin_k_outline (recommended_intake vitamin_k_outline * eer_adjustment) in
  let vitamin_k_outline := set_recommended_intake vitamin_k_outline (round (recommended_intake vitamin_k_outline)) in
  let vitamin_k_outline := set_upper_limit vitamin_k_outline (3 * recommended_intake vitamin_k_outline) in
  Return vitamin_k_outline.

Definition thiamin_activity_multipliers : list (string * Q) :=
  [("inactive", 1.0); ("low_active", 1.05); ("active", 1.1); ("very_active", 1.15)].

Definition generate_thiamin_outline
  (age : Q) (gender activity_level : string) (eer : Q) : result outline :=
  validate_inputs age gender activity_level eer ;;
  let thiamin_outline := empty_outline "mg" in
  let thiamin_outline :=
    if (14 <=? age) && (age <=? 18) then
      if String.eqb gender "M" then set_base thiamin_outline 1.2 1.0
      else set_base thiamin_outline 1.0 0.9
    else
      if String.eqb gender "M" then set_base thiamin_outline 1.2 1.0
      else set_base thiamin_outline 1.1 0.9 in
  m <- dict_get thiamin_activity_multipliers activity_level ;;
  let thiamin_outline := set_recommended_intake thiamin_outline (recommended_intake thiamin_outline * m) in
  let eer_adjustment := py_min 1.2 (py_max 0.9 (eer / reference_eer gender)) in
  let thiamin_outline := set_recommended_intake thiamin_outline (recommended_intake thiamin_outline * eer_adjustment) in
  let thiamin_outline := set_recommended_intake thiamin_outline (round1 (recommended_intake thiamin_outline)) in
  let thiamin_outline := set_upper_limit thiamin_outline (round1 (5 * recommended_intake thiamin_outline)) in
  Return thiamin_outline.

Definition vitamin_b12_activity_multipliers : list (string * Q) :=
  [("inactive", 1.0); ("low_active", 1.02); ("active", 1.04); ("very_active", 1.05)].

Definition generate_vitamin_b12_outline
  (age : Q) (gender activity_level : string) (eer : Q) : result outline :=
  validate_inputs age gender activity_level eer ;;
  let vitamin_b12_outline := empty_outline "mcg" in
  let vitamin_b12_outline := set_recommended_intake vitamin_b12_outline 2.4 in
  let vitamin_b12_outline := set_lower_limit vitamin_b12_outline 2.0 in
  m <- dict_get vitamin_b12_activity_multipliers activity_level ;;
  let vitamin_b12_outline := set_recommended_intake vitamin_b12_outline (recommended_intake vitamin_b12_outline * m) in
  let eer_adjustment := py_min 1.03 (py_max 0.97 (eer / reference_eer gender)) in
  let vitamin_b12_outline := set_recommended_intake vitamin_b12_outline (recommended_intake vitamin_b12_outline * eer_adjustment) in
  let vitamin_b12_outline := set_recommended_intake vitamin_b12_outline (round1 (recommended_intake vitamin_b12_outline)) in
  let vitamin_b12_outline := set_upper_limit vitamin_b12_outline (round1 (10 * recommended_intake vitamin_b12_outline)) in
  Return vitamin_b12_outline.

Definition riboflavin_activity_multipliers : list (string * Q) :=
  [("inactive", 1.0); ("low_active", 1.05); ("active", 1.1); ("very_active", 1.15)].

Definition generate_riboflavin_outline
  (age : Q) (gender activity_level : string) (eer : Q) : result outline :=
  validate_inputs age gender activity_level eer ;;
  let riboflavin_outline := empty_outline "mg" in
  let riboflavin_outline :=
    if (14 <=? age) && (age <=? 18) then
      if String.eqb gender "M" then set_base riboflavin_outline 1.3 1.1
      else set_base riboflavin_outline 1.0 0.9
    else
      if String.eqb gender "M" then set_base riboflavin_outline 1.3 1.1
      else set_base riboflavin_outline 1.1 0.9 in
  m <- dict_get riboflavin_activity_multipliers activity_level ;;
  let riboflavin_outline := set_recommended_intake riboflavin_outline (recommended_intake riboflavin_outline * m) in
  let eer_adjustment := py_min 1.2 (py_max 0.9 (eer / reference_eer gender)) in
  let riboflavin_outline := set_recommended_intake riboflavin_outline (recommended_intake riboflavin_outline * eer_adjustment) in
  let riboflavin_outline := set_recommended_intake riboflavin_outline (round1 (recommended_intake riboflavin_outline)) in
  let riboflavin_outline := set_upper_limit riboflavin_outline (round1 (5 * recommended_intake riboflavin_outline)) in
  Return riboflavin_outline.

Definition folate_activity_multipliers : list (string * Q) :=
  [("inactive", 1.0); ("low_active", 1.03); ("active", 1.07); ("very_active", 1.1)].

Definition generate_folate_outline
  (age : Q) (gender activity_level : string) (eer : Q) : result outline :=
  validate_inputs age gender activity_level eer ;;
  let folate_outline := empty_outline "mcg" in
  let folate_outline :=
    if (14 <=? age) && (age <=? 18) then set_base folate_outline 400 320
    else set_base folate_outline 400 320 in
  m <- dict_get folate_activity_multipliers activity_level ;;
  let folate_outline := set_recommended_intake folate_outline (recommended_intake folate_outline * m) in
  let eer_adjustment := py_min 1.05 (py_max 0.95 (eer / reference_eer gender)) in
  let folate_outline := set_recommended_intake folate_outline (recommended_intake folate_outline * eer_adjustment) in
  let folate_outline := set_recommended_intake folate_outline (round (recommended_intake folate_outline)) in
  let folate_outline :=
    if (14 <=? age) && (age <=? 18) then set_upper_limit folate_outline 800
    else set_upper_limit folate_outline 1000 in
  Return folate_outline.

Definition niacin_activity_multipliers : list (string * Q) :=
  [("inactive", 1.0); ("low_active", 1.05); ("active", 1.1); ("very_active", 1.15)].

Definition generate_niacin_outline
  (age : Q) (gender activity_level : string) (eer : Q) : result outline :=
  validate_inputs age gender activity_level eer ;;
  let niacin_outline := empty_outline "mg" in
  let niacin_outline :=
    if (14 <=? age) && (age <=? 18) then
      if String.eqb gender "M" then set_base niacin_outline 16 12
      else set_base niacin_outline 14 11
    else
      if String.eqb gender "M" then set_base niacin_outline 16 12
      else set_base niacin_outline 14 11 in
  m <- dict_get niacin_activity_multipliers activity_level ;;
  let niacin_outline := set_recommended_intake niacin_outline (recommended_intake niacin_outline * m) in
  let eer_adjustment := py_min 1.2 (py_max 0.9 (eer / reference_eer gender)) in
  let niacin_outline := set_recommended_intake niacin_outline (recommended_intake niacin_outline * eer_adjustment) in
  let niacin_outline := set_recommended_intake niacin_outline (round1 (recommended_intake niacin_outline)) in
  let niacin_outline :=
    if (14 <=? age) && (age <=? 18) then set_upper_limit niacin_outline 30
    else set_upper_limit niacin_outline 35 in
  Return niacin_outline.

Definition choline_activity_multipliers : list (string * Q) :=
  [("inactive", 1.0); ("low_active", 1.03); ("active", 1.07); ("very_active", 1.1)].

Definition generate_choline_outline
  (age : Q) (gender activity_level : string) (eer : Q) : result outline :=
  validate_inputs age gender activity_level eer ;;
  let choline_outline := empty_outline "mg" in
  let choline_outline :=
    if (14 <=? age) && (age <=? 18) then
      if String.eqb gender "M" then set_base choline_outline 550 440
      else set_base choline_outline 400 320
    else
      if String.eqb gender "M" then set_base choline_outline 550 440
      else set_base choline_outline 425 340 in
  m <- dict_get choline_activity_multipliers activity_level ;;
  let choline_outline := set_recommended_intake choline_outline (recommended_intake choline_outline * m) in
  let eer_adjustment := py_min 1.05 (py_max 0.95 (eer / reference_eer gender)) in
  let choline_outline := set_recommended_intake choline_outline (recommended_intake choline_outline * eer_adjustment) in
  let choline_outline := set_recommended_intake choline_outline (round (recommended_intake choline_outline)) in
  let choline_outline :=
    if (14 <=? age) && (age <=? 18) then set_upper_limit choline_outline 3000
    else set_upper_limit choline_outline 3500 in
  Return choline_outline.

Definition pantothenic_acid_activity_multipliers : list (string * Q) :=
  [("inactive", 1.0); ("low_active", 1.03); ("active", 1.07); ("very_active", 1.1)].

Definition generate_pantothenic_acid_outline
  (age : Q) (gender activity_level : string) (eer : Q) : result outline :=
  validate_inputs age gender activity_level eer ;;
  let pantothenic_acid_outline := empty_outline "mg" in
  let pantothenic_acid_outline := set_recommended_intake pantothenic_acid_outline 5 in
  let pantothenic_acid_outline := set_lower_limit pantothenic_acid_outline 4 in
  m <- dict_get pantothenic_acid_activity_multipliers activity_level ;;
  let pantothenic_acid_outline := set_recommended_intake pantothenic_acid_outline (recommended_intake pantothenic_acid_outline * m) in
  let eer_adjustment := py_min 1.05 (py_max 0.95 (eer / reference_eer gender)) in
  let pantothenic_acid_outline := set_recommended_intake pantothenic_acid_outline (recommended_intake pantothenic_acid_outline * eer_adjustment) in
  let pantothenic_acid_outline := set_recommended_intake pantothenic_acid_outline (round1 (recommended_intake pantothenic_acid_outline)) in
  let pantothenic_acid_outline := set_upper_limit pantothenic_acid_outline (round1 (5 * recommended_intake pantothenic_acid_outline)) in
  Return pantothenic_acid_outline.

Definition biotin_activity_multipliers : list (string * Q) :=
  [("inactive", 1.0); ("low_active", 1.02); ("active", 1.04); ("very_active", 1.05)].

Definition generate_biotin_outline
  (age : Q) (gender activity_level : string) (eer : Q) : result outline :=
  validate_inputs age gender activity_level eer ;;
  let biotin_outline := empty_outline "mcg" in
  let biotin_outline :=
    if (14 <=? age) && (age <=? 18) then set_base biotin_outline 25 20
    else set_base biotin_outline 30 24 in
  m <- dict_get biotin_activity_multipliers activity_level ;;
  let biotin_outline := set_recommended_intake biotin_outline (recommended_intake biotin_outline * m) in
  let eer_adjustment := py_min 1.03 (py_max 0.97 (eer / reference_eer gender)) in
  let biotin_outline := set_recommended_intake biotin_outline (recommended_intake biotin_outline * eer_adjustment) in
  let biotin_outline := set_recommended_intake biotin_outline (round (recommended_intake biotin_outline)) in
  let biotin_outline := set_upper_limit biotin_outline (10 * recommended_intake biotin_outline) in
  Return biotin_outline.

(** *** Minerals *)

Definition calcium_activity_multipliers : list (string * Q) :=
  [("inactive", 1.0); ("low_active", 1.03); ("active", 1.07); ("very_active", 1.1)].

Definition generate_calcium_outline
  (age : Q) (gender activity_level : string) (eer : Q) : result outline :=
  validate_inputs age gender activity_level eer ;;
  let calcium_outline := empty_outline "mg" in
  let calcium_outline :=
    if (14 <=? age) && (age <=? 18) then set_base calcium_outline 1300 1000
    else if (19 <=? age) && (age <=? 50) then set_base calcium_outline 1000 800
    else
      if String.eqb gender "M" && (age <=? 70) then set_base calcium_outline 1000 800
      else set_base calcium_outline 1200 1000 in
  m <- dict_get calcium_activity_multipliers activity_level ;;
  let calcium_outline := set_recommended_intake calcium_outline (recommended_intake calcium_outline * m) in
  let eer_adjustment := py_min 1.05 (py_max 0.95 (eer / reference_eer gender)) in
  let calcium_outline := set_recommended_intake calcium_outline (recommended_intake calcium_outline * eer_adjustment) in
  let calcium_outline := set_recommended_intake calcium_outline (round (recommended_intake calcium_outline)) in
  let calcium_outline :=
    if (14 <=? age) && (age <=? 18) then set_upper_limit calcium_outline 3000
    else if (19 <=? age) && (age <=? 50) then set_upper_limit calcium_outline 2500
    else set_upper_limit calcium_outline 2000 in
  Return calcium_outline.

Definition chloride_activity_multipliers : list (string * Q) :=
  [("inactive", 1.0); ("low_active", 1.05); ("active", 1.1); ("very_active", 1.15)].

Definition generate_chloride_outline
  (age : Q) (gender activity_level : string) (eer : Q) : result outline :=
  validate_inputs age gender activity_level eer ;;
  let chloride_outline := empty_outline "mg" in
  let chloride_outline :=
    if (14 <=? age) && (age <=? 18) then set_base chloride_outline 2300 1800
    else if (19 <=? age) && (age <=? 50) then set_base chloride_outline 2300 1800
    else set_base chloride_outline 2000 1500 in
  m <- dict_get chloride_activity_multipliers activity_level ;;
  let chloride_outline := set_recommended_intake chloride_outline (recommended_intake chloride_outline * m) in
  let eer_adjustment := py_min 1.1 (py_max 0.9 (eer / reference_eer gender)) in
  let chloride_outline := set_recommended_intake chloride_outline (recommended_intake chloride_outline * eer_adjustment) in
  let chloride_outline := set_recommended_intake chloride_outline (round (recommended_intake chloride_outline)) in
  let chloride_outline := set_upper_limit chloride_outline 3600 in
  Return chloride_outline.

Definition chromium_activity_multipliers : list (string * Q) :=
  [("inactive", 1.0); ("low_active", 1.03); ("active", 1.07); ("very_active", 1.1)].

Definition generate_chromium_outline
  (age : Q) (gender activity_level : string) (eer : Q) : result outline :=
  validate_inputs age gender activity_level eer ;;
  let chromium_outline := empty_outline "mcg" in
  let chromium_outline :=
    if (14 <=? age) && (age <=? 18) then
      if String.eqb gender "M" then set_base chromium_outline 35 28
      else set_base chromium_outline 24 19
    else if (19 <=? age) && (age <=? 50) then
      if String.eqb gender "M" then set_base chromium_outline 35 28
      else set_base chromium_outline 25 20
    else
      if String.eqb gender "M" then set_base chromium_outline 30 24
      else set_base chromium_outline 20 16 in
  m <- dict_get chromium_activity_multipliers activity_level ;;
  let chromium_outline := set_recommended_intake chromium_outline (recommended_intake chromium_outline * m) in
  let eer_adjustment := py_min 1.05 (py_max 0.95 (eer / reference_eer gender)) in
  let chromium_outline := set_recommended_intake chromium_outline (recommended_intake chromium_outline * eer_adjustment) in
  let chromium_outline := set_recommended_intake chromium_outline (round (recommended_intake chromium_outline)) in
  let chromium_outline := set_upper_limit chromium_outline (10 * recommended_intake chromium_outline) in
  Return chromium_outline.

Definition copper_activity_multipliers : list (string * Q) :=
  [("inactive", 1.0); ("low_active", 1.03); ("active", 1.07); ("very_active", 1.1)].

Definition generate_copper_outline
  (age : Q) (gender activity_level : string) (eer : Q) : result outline :=
  validate_inputs age gender activity_level eer ;;
  let copper_outline := empty_outline "mcg" in
  let copper_outline :=
    if (14 <=? age) && (age <=? 18) then set_base copper_outline 890 700
    else set_base copper_outline 900 700 in
  m <- dict_get copper_activity_multipliers activity_level ;;
  let copper_outline := set_recommended_intake copper_outline (recommended_intake copper_outline * m) in
  let eer_adjustment := py_min 1.05 (py_max 0.95 (eer / reference_eer gender)) in
  let copper_outline := set_recommended_intake copper_outline (recommended_intake copper_outline * eer_adjustment) in
  let copper_outline := set_recommended_intake copper_outline (round (recommended_intake copper_outline)) in
  let copper_outline :=
    if (14 <=? age) && (age <=? 18) then set_upper_limit copper_outline 8000
    else set_upper_limit copper_outline 10000 in
  Return copper_outline.

Definition fluoride_activity_multipliers : list (string * Q) :=
  [("inactive", 1.0); ("low_active", 1.02); ("active", 1.04); ("very_active", 1.05)].

Definition generate_fluoride_outline
  (age : Q) (gender activity_level : string) (eer : Q) : result outline :=
  validate_inputs age gender activity_level eer ;;
  let fluoride_outline := empty_outline "mg" in
  let fluoride_outline :=
    if (14 <=? age) && (age <=? 18) then
      if String.eqb gender "M" then set_base fluoride_outline 3.0 2.4
      else set_base fluoride_outline 3.0 2.4
    else
      if String.eqb gender "M" then set_base fluoride_outline 4.0 3.2
      else set_base fluoride_outline 3.0 2.4 in
  m <- dict_get fluoride_activity_multipliers activity_level ;;
  let fluoride_outline := set_recommended_intake fluoride_outline (recommended_intake fluoride_outline * m) in
  let eer_adjustment := py_min 1.03 (py_max 0.97 (eer / reference_eer gender)) in
  let fluoride_outline := set_recommended_intake fluoride_outline (recommended_intake fluoride_outline * eer_adjustment) in
  let fluoride_outline := set_recommended_intake fluoride_outline (round1 (recommended_intake fluoride_outline)) in
  let fluoride_outline := set_upper_limit fluoride_outline 10.0 in
  Return fluoride_outline.

Definition iodine_activity_multipliers : list (string * Q) :=
  [("inactive", 1.0); ("low_active", 1.02); ("active", 1.04); ("very_active", 1.05)].

Definition generate_iodine_outline
  (age : Q) (gender activity_level : string) (eer : Q) : result outline :=
  validate_inputs age gender activity_level eer ;;
  let iodine_outline := empty_outline "mcg" in
  let iodine_outline :=
    if (14 <=? age) && (age <=? 18) then set_base iodine_outline 150 95
    else set_base iodine_outline 150 95 in
  m <- dict_get iodine_activity_multipliers activity_level ;;
  let iodine_outline := set_recommended_intake iodine_outline (recommended_intake iodine_outline * m) in
  let eer_adjustment := py_min 1.03 (py_max 0.97 (eer / reference_eer gender)) in
  let iodine_outline := set_recommended_intake iodine_outline (recommended_intake iodine_outline * eer_adjustment) in
  let iodine_outline := set_recommended_intake iodine_outline (round (recommended_intake iodine_outline)) in
  let iodine_outline :=
    if (14 <=? age) && (age <=? 18) then set_upper_limit iodine_outline 900
    else set_upper_limit iodine_outline 1100 in
  Return iodine_outline.

Definition iron_activity_multipliers : list (string * Q) :=
  [("inactive", 1.0); ("low_active", 1.03); ("active", 1.07); ("very_active", 1.1)].

Definition generate_iron_outline
  (age : Q) (gender activity_level : string) (eer : Q) : result outline :=
  validate_inputs age gender activity_level eer ;;
  let iron_outline := empty_outline "mg" in
  let iron_outline :=
    if (14 <=? age) && (age <=? 18) then
      if String.eqb gender "M" then set_base iron_outline 11 7.7
      else set_base iron_outline 15 7.9
    else if (19 <=? age) && (age <=? 50) then
      if String.eqb gender "M" then set_base iron_outline 8 6
      else set_base iron_outline 18 8.1
    else set_base iron_outline 8 6 in
  m <- dict_get iron_activity_multipliers activity_level ;;
  let iron_outline := set_recommended_intake iron_outline (recommended_intake iron_outline * m) in
  let eer_adjustment := py_min 1.05 (py_max 0.95 (eer / reference_eer gender)) in
  let iron_outline := set_recommended_intake iron_outline (recommended_intake iron_outline * eer_adjustment) in
  let iron_outline := set_recommended_intake iron_outline (round1 (recommended_intake iron_outline)) in
  let iron_outline := set_upper_limit iron_outline 45 in
  Return iron_outline.

Definition magnesium_activity_multipliers : list (string * Q) :=
  [("inactive", 1.0); ("low_active", 1.03); ("active", 1.07); ("very_active", 1.1)].

Definition generate_magnesium_outline
  (age : Q) (gender activity_level : string) (eer : Q) : result outline :=
  validate_inputs age gender activity_level eer ;;
  let magnesium_outline := empty_outline "mg" in
  let magnesium_outline :=
    if (14 <=? age) && (age <=? 18) then
      if String.eqb gender "M" then set_base magnesium_outline 410 360
      else set_base magnesium_outline 360 300
    else if (19 <=? age) && (age <=? 30) then
      if String.eqb gender "M" then set_base magnesium_outline 400 330
      else set_base magnesium_outline 310 255
    else
      if String.eqb gender "M" then set_base magnesium_outline 420 350
      else set_base magnesium_outline 320 265 in
  m <- dict_get magnesium_activity_multipliers activity_level ;;
  let magnesium_outline := set_recommended_intake magnesium_outline (recommended_intake magnesium_outline * m) in
  let eer_adjustment := py_min 1.05 (py_max 0.95 (eer / reference_eer gender)) in
  let magnesium_outline := set_recommended_intake magnesium_outline (recommended_intake magnesium_outline * eer_adjustment) in
  let magnesium_outline := set_recommended_intake magnesium_outline (round (recommended_intake magnesium_outline)) in
  let magnesium_outline := set_upper_limit magnesium_outline 600 in
  Return magnesium_outline.

Definition manganese_activity_multipliers : list (string * Q) :=
  [("inactive", 1.0); ("low_active", 1.02); ("active", 1.04); ("very_active", 1.05)].

Definition generate_manganese_outline
  (age : Q) (gender activity_level : string) (eer : Q) : result outline :=
  validate_inputs age gender activity_level eer ;;
  let manganese_outline := empty_outline "mg" in
  let manganese_outline :=
    if (14 <=? age) && (age <=? 18) then
      if String.eqb gender "M" then set_base manganese_outline 2.2 1.8
      else set_base manganese_outline 1.6 1.3
    else
      if String.eqb gender "M" then set_base manganese_outline 2.3 1.9
      else set_base manganese_outline 1.8 1.5 in
  m <- dict_get manganese_activity_multipliers activity_level ;;
  let manganese_outline := set_recommended_intake manganese_outline (recommended_intake manganese_outline * m) in
  let eer_adjustment := py_min 1.03 (py_max 0.97 (eer / reference_eer gender)) in
  let manganese_outline := set_recommended_intake manganese_outline (recommended_intake manganese_outline * eer_adjustment) in
  let manganese_outline := set_recommended_intake manganese_outline (round1 (recommended_intake manganese_outline)) in
  let manganese_outline :=
    if (14 <=? age) && (age <=? 18) then set_upper_limit manganese_outline 9.0
    else set_upper_limit manganese_outline 11.0 in
  Return manganese_outline.

Definition molybdenum_activity_multipliers : list (string * Q) :=
  [("inactive", 1.0); ("low_active", 1.02); ("active", 1.04); ("very_active", 1.05)].

Definition generate_molybdenum_outline
  (age : Q) (gender activity_level : string) (eer : Q) : result outline :=
  validate_inputs age gender activity_level eer ;;
  let molybdenum_outline := empty_outline "mcg" in
  let molybdenum_outline :=
    if (14 <=? age) && (age <=? 18) then set_base molybdenum_outline 43 34
    else set_base molybdenum_outline 45 34 in
  m <- dict_get molybdenum_activity_multipliers activity_level ;;
  let molybdenum_outline := set_recommended_intake molybdenum_outline (recommended_intake molybdenum_outline * m) in
  let eer_adjustment := py_min 1.03 (py_max 0.97 (eer / reference_eer gender)) in
  let molybdenum_outline := set_recommended_intake molybdenum_outline (recommended_intake molybdenum_outline * eer_adjustment) in
  let molybdenum_outline := set_recommended_intake molybdenum_outline (round (recommended_intake molybdenum_outline)) in
  let molybdenum_outline :=
    if (14 <=? age) && (age <=? 18) then set_upper_limit molybdenum_outline 1700
    else set_upper_limit molybdenum_outline 2000 in
  Return molybdenum_outline.

Definition phosphorus_activity_multipliers : list (string * Q) :=
  [("inactive", 1.0); ("low_active", 1.03); ("active", 1.07); ("very_active", 1.1)].

Definition generate_phosphorus_outline
  (age : Q) (gender activity_level : string) (eer : Q) : result outline :=
  validate_inputs age gender activity_level eer ;;
  let phosphorus_outline := empty_outline "mg" in
  let phosphorus_outline :=
    if (14 <=? age) && (age <=? 18) then set_base phosphorus_outline 1250 1055
    else set_base phosphorus_outline 700 580 in
  m <- dict_get phosphorus_activity_multipliers activity_level ;;
  let phosphorus_outline := set_recommended_intake phosphorus_outline (recommended_intake phosphorus_outline * m) in
  let eer_adjustment := py_min 1.05 (py_max 0.95 (eer / reference_eer gender)) in
  let phosphorus_outline := set_recommended_intake phosphorus_outline (recommended_intake phosphorus_outline * eer_adjustment) in
  let phosphorus_outline := set_recommended_intake phosphorus_outline (round (recommended_intake phosphorus_outline)) in
  let phosphorus_outline :=
    if (14 <=? age) && (age <=? 18) then set_upper_limit phosphorus_outline 4000
    else set_upper_limit phosphorus_outline (if age <=? 70 then 4000 else 3000) in
  Return phosphorus_outline.

Definition potassium_activity_multipliers : list (string * Q) :=
  [("inactive", 1.0); ("low_active", 1.05); ("active", 1.1); ("very_active", 1.15)].

Definition generate_potassium_outline
  (age : Q) (gender activity_level : string) (eer : Q) : result outline :=
  validate_inputs age gender activity_level eer ;;
  let potassium_outline := empty_outline "mg" in
  let potassium_outline :=
    if (14 <=? age) && (age <=? 18) then
      if String.eqb gender "M" then set_base potassium_outline 3000 2400
      else set_base potassium_outline 2300 1840
    else
      if String.eqb gender "M" then set_base potassium_outline 3400 2720
      else set_base potassium_outline 2600 2080 in
  m <- dict_get potassium_activity_multipliers activity_level ;;
  let potassium_outline := set_recommended_intake potassium_outline (recommended_intake potassium_outline * m) in
  let eer_adjustment := py_min 1.1 (py_max 0.9 (eer / reference_eer gender)) in
  let potassium_outline := set_recommended_intake potassium_outline (recommended_intake potassium_outline * eer_adjustment) in
  let potassium_outline := set_recommended_intake potassium_outline (round (recommended_intake potassium_outline)) in
  let potassium_outline := set_upper_limit potassium_outline (2 * recommended_intake potassium_outline) in
  Return potassium_outline.

Definition selenium_activity_multipliers : list (string * Q) :=
  [("inactive", 1.0); ("low_active", 1.02); ("active", 1.04); ("very_active", 1.05)].

Definition generate_selenium_outline
  (age : Q) (gender activity_level : string) (eer : Q) : result outline :=
  validate_inputs age gender activity_level eer ;;
  let selenium_outline := empty_outline "mcg" in
  let selenium_outline :=
    if (14 <=? age) && (age <=? 18) then set_base selenium_outline 55 45
    else set_base selenium_outline 55 45 in
  m <- dict_get selenium_activity_multipliers activity_level ;;
  let selenium_outline := set_recommended_intake selenium_outline (recommended_intake selenium_outline * m) in
  let eer_adjustment := py_min 1.03 (py_max 0.97 (eer / reference_eer gender)) in
  let selenium_outline := set_recommended_intake selenium_outline (recommended_intake selenium_outline * eer_adjustment) in
  let selenium_outline := set_recommended_intake selenium_outline (round (recommended_intake selenium_outline)) in
  let selenium_outline := set_upper_limit selenium_outline 400 in
  Return selenium_outline.

Definition sodium_activity_multipliers : list (string * Q) :=
  [("inactive", 1.0); ("low_active", 1.05); ("active", 1.15); ("very_active", 1.2)].

Definition generate_sodium_outline
  (age : Q) (gender activity_level : string) (eer : Q) : result outline :=
  validate_inputs age gender activity_level eer ;;
  let sodium_outline := empty_outline "mg" in
  let sodium_outline :=
    if (14 <=? age) && (age <=? 50) then set_base sodium_outline 1500 1200
    else if (51 <=? age) && (age <=? 70) then set_base sodium_outline 1300 1040
    else set_base sodium_outline 1200 960 in
  m <- dict_get sodium_activity_multipliers activity_level ;;
  let sodium_outline := set_recommended_intake sodium_outline (recommended_intake sodium_outline * m) in
  let eer_adjustment := py_min 1.15 (py_max 0.85 (eer / reference_eer gender)) in
  let sodium_outline := set_recommended_intake sodium_outline (recommended_intake sodium_outline * eer_adjustment) in
  let sodium_outline := set_recommended_intake sodium_outline (round (recommended_intake sodium_outline)) in
  let sodium_outline := set_upper_limit sodium_outline 2300 in
  Return sodium_outline.

Definition zinc_activity_multipliers : list (string * Q) :=
  [("inactive", 1.0); ("low_active", 1.03); ("active", 1.07); ("very_active", 1.1)].

Definition generate_zinc_outline
  (age : Q) (gender activity_level : string) (eer : Q) : result outline :=
  validate_inputs age gender activity_level eer ;;
  let zinc_outline := empty_outline "mg" in
  let zinc_outline :=
    if (14 <=? age) && (age <=? 18) then
      if String.eqb gender "M" then set_base zinc_outline 11 8.5
      else set_base zinc_outline 9 7.3
    else
      if String.eqb gender "M" then set_base zinc_outline 11 9.4
      else set_base zinc_outline 8 6.8 in
  m <- dict_get zinc_activity_multipliers activity_level ;;
  let zinc_outline := set_recommended_intake zinc_outline (recommended_intake zinc_outline * m) in
  let eer_adjustment := py_min 1.05 (py_max 0.95 (eer / reference_eer gender)) in
  let zinc_outline := set_recommended_intake zinc_outline (recommended_intake zinc_outline * eer_adjustment) in
  let zinc_outline := set_recommended_intake zinc_outline (round1 (recommended_intake zinc_outline)) in
  let zinc_outline :=
    if (14 <=? age) && (age <=? 18) then set_upper_limit zinc_outline 34
    else set_upper_limit zinc_outline 40 in
  Return zinc_outline.

(** ** The aggregator *)

(** The nested dict that is returned: section name, then nutrient key. *)
Definition guideline : Type := list (string * list (string * outline)).

Definition generate_nutritional_guideline
  (age height weight : Q) (gender activity_level : string) : result guideline :=
  eer <- calc_EER age height weight gender activity_level ;;
  carbohydrate_outline <- generate_carbohydrates_outline age gender activity_level eer ;;
  fiber_outline <- generate_fiber_outline age gender activity_level eer ;;
  protein_outline <- generate_protein_outline age gender activity_level eer ;;
  fat_outline <- generate_fat_outline age gender activity_level eer ;;
  vitamin_a_outline <- generate_vitamin_a_outline age gender activity_level eer ;;
  vitamin_c_outline <- generate_vitamin_c_outline age gender activity_level eer ;;
  vitamin_d_outline <- generate_vitamin_d_outline age gender activity_level eer ;;
  vitamin_b6_outline <- generate_vitamin_b6_outline age gender activity_level eer ;;
  vitamin_e_outline <- generate_vitamin_e_outline age gender activity_level eer ;;
  vitamin_k_outline <- generate_vitamin_k_outline age gender activity_level eer ;;
  thiamin_outline <- generate_thiamin_outline age gender activity_level eer ;;
  vitamin_b12_outline <- generate_vitamin_b12_outline age gender activity_level eer ;;
  riboflavin_outline <- generate_riboflavin_outline age gender activity_level eer ;;
  folate_outline <- generate_folate_outline age gender activity_level eer ;;
  niacin_outline <- generate_niacin_outline age gender activity_level eer ;;
  choline_outline <- generate_choline_outline age gender activity_level eer ;;
  pantothenic_acid_outline <- generate_pantothenic_acid_outline age gender activity_level eer ;;
  biotin_outline <- generate_biotin_outline age gender activity_level eer ;;
  calcium_outline <- generate_calcium_outline age gender activity_level eer ;;
  chloride_outline <- generate_chloride_outline age gender activity_level eer ;;
  chromium_outline <- generate_chromium_outline age gender activity_level eer ;;
  copper_outline <- generate_copper_outline age gender activity_level eer ;;
  fluoride_outline <- generate_fluoride_outline age gender activity_level eer ;;
  iodine_outline <- generate_iodine_outline age gender activity_level eer ;;
  iron_outline <- generate_iron_outline age gender activity_level eer ;;
  magnesium_outline <- generate_magnesium_outline age gender activity_level eer ;;
  manganese_outline <- generate_manganese_outline age gender activity_level eer ;;
  molybdenum_outline <- generate_molybdenum_outline age gender activity_level eer ;;
  phosphorus_outline <- generate_phosphorus_outline age gender activity_level eer ;;
  potassium_outline <- generate_potassium_outline age gender activity_level eer ;;
  selenium_outline <- generate_selenium_outline age gender activity_level eer ;;
  sodium_outline <- generate_sodium_outline age gender activity_level eer ;;
  zinc_outline <- generate_zinc_outline age gender activity_level eer ;;
  let nutritional_guideline :=
   [
    ("macronutrients",
      [("carbohydrates", carbohydrate_outline);
       ("fiber", fiber_outline);
       ("protein", protein_outline);
       ("fat", fat_outline)]);
    ("vitamins",
      [("vitamin_a", vitamin_a_outline);
       ("vitamin_c", vitamin_c_outline);
       ("vitamin_d", vitamin_d_outline);
       ("vitamin_b6", vitamin_b6_outline);
       ("vitamin_e", vitamin_e_outline);
       ("vitamin_k", vitamin_k_outline);
       ("thiamin", thiamin_outline);
       ("vitamin_b12", vitamin_b12_outline);
       ("riboflavin", riboflavin_outline);
       ("folate", folate_outline);
       ("niacin", niacin_outline);
       ("choline", choline_outline);
       ("pantothenic_acid", pantothenic_acid_outline);
       ("biotin", biotin_outline)]);
    ("minerals",
      [("calcium", calcium_outline);
       ("chloride", chloride_outline);
       ("chromium", chromium_outline);
       ("copper", copper_outline);
       ("fluoride", fluoride_outline);
       ("iodine", iodine_outline);
       ("iron", iron_outline);
       ("magnesium", magnesium_outline);
       ("manganese", manganese_outline);
       ("molybdenum", molybdenum_outline);
       ("phosphorus", phosphorus_outline);
       ("potassium", potassium_outline);
       ("selenium", selenium_outline);
       ("sodium", sodium_outline);
       ("zinc", zinc_outline)])
   ] in
  Return nutritional_guideline.

(** ** The generators as a family *)

Inductive nutrient : Type :=
| N_carbohydrates
| N_fiber
| N_protein
| N_fat
| N_vitamin_a
| N_vitamin_c
| N_vitamin_d
| N_vitamin_b6
| N_vitamin_e
| N_vitamin_k
| N_thiamin
| N_vitamin_b12
| N_riboflavin
| N_folate
| N_niacin
| N_choline
| N_pantothenic_acid
| N_biotin
| N_calcium
| N_chloride
| N_chromium
| N_copper
| N_fluoride
| N_iodine
| N_iron
| N_magnesium
| N_manganese
| N_molybdenum
| N_phosphorus
| N_potassium
| N_selenium
| N_sodium
| N_zinc.

Definition all_nutrients : list nutrient :=
  [N_carbohydrates;
   N_fiber;
   N_protein;
   N_fat;
   N_vitamin_a;
   N_vitamin_c;
   N_vitamin_d;
   N_vitamin_b6;
   N_vitamin_e;
   N_vitamin_k;
   N_thiamin;
   N_vitamin_b12;
   N_riboflavin;
   N_folate;
   N_niacin;
   N_choline;
   N_pantothenic_acid;
   N_biotin;
   N_calcium;
   N_chloride;
   N_chromium;
   N_copper;
   N_fluoride;
   N_iodine;
   N_iron;
   N_magnesium;
   N_manganese;
   N_molybdenum;
   N_phosphorus;
   N_potassium;
   N_selenium;
   N_sodium;
   N_zinc].

Definition generator (n : nutrient)
  : Q -> string -> string -> Q -> result outline :=
  match n with
  | N_carbohydrates => generate_carbohydrates_outline
  | N_fiber => generate_fiber_outline
  | N_protein => generate_protein_outline
  | N_fat => generate_fat_outline
  | N_vitamin_a => generate_vitamin_a_outline
  | N_vitamin_c => generate_vitamin_c_outline
  | N_vitamin_d => generate_vitamin_d_outline
  | N_vitamin_b6 => generate_vitamin_b6_outline
  | N_vitamin_e => generate_vitamin_e_outline
  | N_vitamin_k => generate_vitamin_k_outline
  | N_thiamin => generate_thiamin_outline
  | N_vitamin_b12 => generate_vitamin_b12_outline
  | N_riboflavin => generate_riboflavin_outline
  | N_folate => generate_folate_outline
  | N_niacin => generate_niacin_outline
  | N_choline => generate_choline_outline
  | N_pantothenic_acid => generate_pantothenic_acid_outline
  | N_biotin => generate_biotin_outline
  | N_calcium => generate_calcium_outline
  | N_chloride => generate_chloride_outline
  | N_chromium => generate_chromium_outline
  | N_copper => generate_copper_outline
  | N_fluoride => generate_fluoride_outline
  | N_iodine => generate_iodine_outline
  | N_iron => generate_iron_outline
  | N_magnesium => generate_magnesium_outline
  | N_manganese => generate_manganese_outline
  | N_molybdenum => generate_molybdenum_outline
  | N_phosphorus => generate_phosphorus_outline
  | N_potassium => generate_potassium_outline
  | N_selenium => generate_selenium_outline
  | N_sodium => generate_sodium_outline
  | N_zinc => generate_zinc_outline
  end.

(** The activity multiplier table of a generator, when it applies one. *)
Definition activity_multipliers (n : nutrient) : option (list (string * Q)) :=
  match n with
  | N_carbohydrates | N_fat => None
  | N_fiber => Some fiber_activity_multipliers
  | N_protein => Some protein_activity_multipliers
  | N_vitamin_a => Some vitamin_a_activity_multipliers
  | N_vitamin_c => Some vitamin_c_activity_multipliers
  | N_vitamin_d => Some vitamin_d_activity_multipliers
  | N_vitamin_b6 => Some vitamin_b6_activity_multipliers
  | N_vitamin_e => Some vitamin_e_activity_multipliers
  | N_vitamin_k => Some vitamin_k_activity_multipliers
  | N_thiamin => Some thiamin_activity_multipliers
  | N_vitamin_b12 => Some vitamin_b12_activity_multipliers
  | N_riboflavin => Some riboflavin_activity_multipliers
  | N_folate => Some folate_activity_multipliers
  | N_niacin => Some niacin_activity_multipliers
  | N_choline => Some choline_activity_multipliers
  | N_pantothenic_acid => Some pantothenic_acid_activity_multipliers
  | N_biotin => Some biotin_activity_multipliers
  | N_calcium => Some calcium_activity_multipliers
  | N_chloride => Some chloride_activity_multipliers
  | N_chromium => Some chromium_activity_multipliers
  | N_copper => Some copper_activity_multipliers
  | N_fluoride => Some fluoride_activity_multipliers
  | N_iodine => Some iodine_activity_multipliers
  | N_iron => Some iron_activity_multipliers
  | N_magnesium => Some magnesium_activity_multipliers
  | N_manganese => Some manganese_activity_multipliers
  | N_molybdenum => Some molybdenum_activity_multipliers
  | N_phosphorus => Some phosphorus_activity_multipliers
  | N_potassium => Some potassium_activity_multipliers
  | N_selenium => Some selenium_activity_multipliers
  | N_sodium => Some sodium_activity_multipliers
  | N_zinc => Some zinc_activity_multipliers
  end.

(** The key under which the aggregator files each outline. *)
Definition section_of (n : nutrient) : string :=
  match n with
  | N_carbohydrates | N_fiber | N_protein | N_fat => "macronutrients"
  | N_vitamin_a
  | N_vitamin_c
  | N_vitamin_d
  | N_vitamin_b6
  | N_vitamin_e
  | N_vitamin_k
  | N_thiamin
  | N_vitamin_b12
  | N_riboflavin
  | N_folate
  | N_niacin
  | N_choline
  | N_pantothenic_acid
  | N_biotin => "vitamins"
  | N_calcium
  | N_chloride
  | N_chromium
  | N_copper
  | N_fluoride
  | N_iodine
  | N_iron
  | N_magnesium
  | N_manganese
  | N_molybdenum
  | N_phosphorus
  | N_potassium
  | N_selenium
  | N_sodium
  | N_zinc => "minerals"
  end.

Definition key_of (n : nutrient) : string :=
  match n with
  | N_carbohydrates => "carbohydrates"
  | N_fiber => "fiber"
  | N_protein => "protein"
  | N_fat => "fat"
  | N_vitamin_a => "vitamin_a"
  | N_vitamin_c => "vitamin_c"
  | N_vitamin_d => "vitamin_d"
  | N_vitamin_b6 => "vitamin_b6"
  | N_vitamin_e => "vitamin_e"
  | N_vitamin_k => "vitamin_k"
  | N_thiamin => "thiamin"
  | N_vitamin_b12 => "vitamin_b12"
  | N_riboflavin => "riboflavin"
  | N_folate => "folate"
  | N_niacin => "niacin"
  | N_choline => "choline"
  | N_pantothenic_acid => "pantothenic_acid"
  | N_biotin => "biotin"
  | N_calcium => "calcium"
  | N_chloride => "chloride"
  | N_chromium => "chromium"
  | N_copper => "copper"
  | N_fluoride => "fluoride"
  | N_iodine => "iodine"
  | N_iron => "iron"
  | N_magnesium => "magnesium"
  | N_manganese => "manganese"
  | N_molybdenum => "molybdenum"
  | N_phosphorus => "phosphorus"
  | N_potassium => "potassium"
  | N_selenium => "selenium"
  | N_sodium => "sodium"
  | N_zinc => "zinc"
  end.

(** [g[section][key]] *)
Fixpoint lookup {A : Type} (d : list (string * A)) (k : string) : option A :=
  match d with
  | [] => None
  | (k', v) :: d' => if String.eqb k k' then Some v else lookup d' k
  end.

Definition entry (g : guideline) (section key : string) : option outline :=
  match lookup g section with
  | Some s => lookup s key
  | None => None
  end.

Definition keys {A : Type} (d : list (string * A)) : list string := map fst d.

(** ** Valid inputs and the outline invariant *)

Definition valid_age (age : Q) : Prop := 14 <= age.
Definition valid_gender (gender : string) : Prop := In gender genders.
Definition valid_activity_level (activity_level : string) : Prop :=
  In activity_level activity_levels.

(** A valid input of an outline generator. *)
Definition valid_outline_input
  (age : Q) (gender activity_level : string) (eer : Q) : Prop :=
  valid_age age /\ valid_gender gender /\
  valid_activity_level activity_level /\ 0 < eer.

(** An invalid one: one of the four checks fails. *)
Definition invalid_outline_input
  (age : Q) (gender activity_level : string) (eer : Q) : Prop :=
  age < 14 \/ ~ valid_gender gender \/
  ~ valid_activity_level activity_level \/ eer <= 0.

(** A valid input of [calc_EER] (height and weight are not checked). *)
Definition valid_eer_input (age : Q) (gender activity_level : string) : Prop :=
  valid_age age /\ valid_gender gender /\ valid_activity_level activity_level.

Definition invalid_eer_input (age : Q) (gender activity_level : string) : Prop :=
  age < 14 \/ ~ valid_gender gender \/ ~ valid_activity_level activity_level.

(** The invariant of an outline. *)
Definition well_ordered (o : outline) : Prop :=
  lower_limit o <= recommended_intake o <= upper_limit o.

(** ** Outcomes of a call *)

(** The one error kind: a [ValueError] ("InvalidArgument"). *)
Definition raises_invalid_argument {A : Type} (r : result A) : Prop :=
  exists msg, r = Raise (ValueError msg).

Definition returns {A : Type} (r : result A) : Prop := exists v, r = Return v.

(** ** Multiplier tables, body weight, age bands *)

(** Every entry of a multiplier table lies between [lo] and [hi]. *)
Definition multipliers_within (lo hi : Q) (t : list (string * Q)) : Prop :=
  forall k m, In (k, m) t -> lo <= m <= hi.

(** The estimated body weight, as the specification words it: 60 (male)
    or 50 (female) for ages 14 to 18, otherwise 70 (male) or 57 (female). *)
Definition estimated_body_weight (age : Q) (gender : string) : Q :=
  if (14 <=? age) && (age <=? 18)
  then (if String.eqb gender "M" then 60 else 50)
  else (if String.eqb gender "M" then 70 else 57).

(** The generators whose second age test is [19 <= age <= 50] (or
    [19 <= age <= 30]), with a last [else] for the oldest band. *)
Definition three_band_nutrients : list nutrient :=
  [N_vitamin_b6; N_calcium; N_chloride; N_chromium; N_iron; N_magnesium].

(** ** The shape of the aggregate *)

(** The dict literal the aggregator returns, over the outline [f n] of each
    nutrient [n]. *)
Definition assemble (f : nutrient -> outline) : guideline :=
 [
  ("macronutrients",
    [("carbohydrates", f N_carbohydrates);
     ("fiber", f N_fiber);
     ("protein", f N_protein);
     ("fat", f N_fat)]);
  ("vitamins",
    [("vitamin_a", f N_vitamin_a);
     ("vitamin_c", f N_vitamin_c);
     ("vitamin_d", f N_vitamin_d);
     ("vitamin_b6", f N_vitamin_b6);
     ("vitamin_e", f N_vitamin_e);
     ("vitamin_k", f N_vitamin_k);
     ("thiamin", f N_thiamin);
     ("vitamin_b12", f N_vitamin_b12);
     ("riboflavin", f N_riboflavin);
     ("folate", f N_folate);
     ("niacin", f N_niacin);
     ("choline", f N_choline);
     ("pantothenic_acid", f N_pantothenic_acid);
     ("biotin", f N_biotin)]);
  ("minerals",
    [("calcium", f N_calcium);
     ("chloride", f N_chloride);
     ("chromium", f N_chromium);
     ("copper", f N_copper);
     ("fluoride", f N_fluoride);
     ("iodine", f N_iodine);
     ("iron", f N_iron);
     ("magnesium", f N_magnesium);
     ("manganese", f N_manganese);
     ("molybdenum", f N_molybdenum);
     ("phosphorus", f N_phosphorus);
     ("potassium", f N_potassium);
     ("selenium", f N_selenium);
     ("sodium", f N_sodium);
     ("zinc", f N_zinc)])
 ].

(** The outline a call returned. *)
Definition returned (r : result outline) : outline :=
  match r with
  | Return o => o
  | _ => empty_outline ""
  end.

Definition macronutrient_keys : list string :=
  ["carbohydrates"; "fiber"; "protein"; "fat"].

Definition vitamin_keys : list string :=
  ["vitamin_a";
   "vitamin_c";
   "vitamin_d";
   "vitamin_b6";
   "vitamin_e";
   "vitamin_k";
   "thiamin";
   "vitamin_b12";
   "riboflavin";
   "folate";
   "niacin";
   "choline";
   "pantothenic_acid";
   "biotin"].

Definition mineral_keys : list string :=
  ["calcium";
   "chloride";
   "chromium";
   "copper";
   "fluoride";
   "iodine";
   "iron";
   "magnesium";
   "manganese";
   "molybdenum";
   "phosphorus";
   "potassium";
   "selenium";
   "sodium";
   "zinc"].

(** ** Age bands *)

(** The comparisons the generators make on [age], in one list. *)
Definition age_tests (age : Q) : list bool :=
  [14 <=? age; age <=? 18; 19 <=? age; age <=? 30;
   age <=? 50; age >? 50; 51 <=? age; age <=? 70].

(** Two ages of one band of the reference tables. *)
Definition same_age_band (a b : Q) : Prop :=
  (14 <= a <= 18 /\ 14 <= b <= 18) \/
  (19 <= a <= 30 /\ 19 <= b <= 30) \/
  (30 < a <= 50 /\ 30 < b <= 50) \/
  (51 <= a <= 70 /\ 51 <= b <= 70) \/
  (70 < a /\ 70 < b).

(** ** EER windows *)

(** The generators that scale the intake by the clamped ratio
    [eer / reference_eer]: all but carbohydrates, fat and fiber. *)
Definition eer_adjusted (n : nutrient) : bool :=
  match n with
  | N_carbohydrates | N_fat | N_fiber => false
  | _ => true
  end.

(** ** Order of the activity levels *)

Definition activity_rank (activity_level : string) : nat :=
  if String.eqb activity_level "inactive" then 0
  else if String.eqb activity_level "low_active" then 1
  else if String.eqb activity_level "active" then 2
  else 3.

(** The pairs of activity levels, lower rank first. *)
Definition ordered_activity_pairs : list (string * string) :=
  [("inactive", "inactive"); ("inactive", "low_active");
   ("inactive", "active"); ("inactive", "very_active");
   ("low_active", "low_active"); ("low_active", "active");
   ("low_active", "very_active"); ("active", "active");
   ("active", "very_active"); ("very_active", "very_active")].

(** A multiplier table whose entries are not negative and do not decrease
    with the activity level. *)
Definition nondecreasing_table (t : list (string * Q)) : bool :=
  forallb
    (fun p =>
       match dict_get t (fst p), dict_get t (snd p) with
       | Return m1, Return m2 => (0 <=? m1) && (m1 <=? m2)
       | _, _ => false
       end)
    ordered_activity_pairs.

(** ** Reporting: units, precision, fixed limits *)



(** The generators whose three values are fractions of the EER. *)
Definition energy_fraction (n : nutrient) : bool :=
  match n with
  | N_carbohydrates | N_fat => true
  | _ => false
  end.

(** The generators whose upper limit is a constant of the age band (a
    Tolerable Upper Intake Level), not a multiple of the intake. *)
Definition fixed_upper_limit (n : nutrient) : bool :=
  match n with
  | N_carbohydrates | N_fiber | N_protein | N_fat | N_vitamin_k | N_thiamin
  | N_vitamin_b12 | N_riboflavin | N_pantothenic_acid | N_biotin
  | N_chromium | N_potassium => false
  | _ => true
  end.

(** ** Binary64

    A Python [float] is an IEEE 754 binary64 value: every operation rounds,
    and there are two infinities and NaN.  *)

(** The largest finite binary64 value, (2^53 - 1) * 2^971. *)
Definition float_max : Q := inject_Z ((2 ^ 53 - 1) * 2 ^ 971).

(** A number within the range of the finite binary64 values. *)
Definition binary64_range (x : Q) : Prop := - float_max <= x <= float_max.

(** [calc_EER] and [generate_carbohydrates_outline], the first generator the
    aggregator calls, over the machine's floats.  [round] is the
    interpreter's: the nearest integer for a finite value, [OverflowError]
    for an infinity, [ValueError] for NaN. *)

Module Binary64.

Import PrimFloat FloatOps SpecFloat.
Local Open Scope float_scope.
#[local] Set Warnings "-inexact-float,-notation-overridden".

Inductive exn : Type :=
| ValueError (msg : string)
| OverflowError (msg : string).

Inductive result (A : Type) : Type :=
| Return (v : A)
| Raise (e : exn)
| FallThrough.

Arguments Return {A} v.
Arguments Raise {A} e.
Arguments FallThrough {A}.

Definition bind {A B : Type} (c : result A) (k : A -> result B) : result B :=
  match c with
  | Return v => k v
  | Raise e => Raise e
  | FallThrough => FallThrough
  end.

Local Notation "x <- c1 ;; c2" := (bind c1 (fun x => c2))
  (at level 61, c1 at next level, right associativity).
Local Notation "c1 ;; c2" := (bind c1 (fun _ => c2))
  (at level 61, right associativity).

Definition raise_if (c : bool) (e : exn) : result unit :=
  if c then Raise e else Return tt.

(** The rational a finite float stands for: [(-1)^s * m * 2^e]. *)
Definition exact_value (s : bool) (m : positive) (e : Z) : Q :=
  let v := match e with
           | Zneg p => (Zpos m # 2 ^ p)%Q
           | _ => inject_Z (Zpos m * 2 ^ e)
           end in
  if s then (- v)%Q else v.

(** [round(x)] of a float: the nearest integer to its exact value, ties to
    the even one; infinities and NaN have no integer. *)
Definition round (x : float) : result Z :=
  match Prim2SF x with
  | S754_zero _ => Return 0%Z
  | S754_finite s m e => Return (round_half_even (exact_value s m e))
  | S754_infinity _ =>
      Raise (OverflowError "cannot convert float infinity to integer")
  | S754_nan =>
      Raise (ValueError "cannot convert float NaN to integer")
  end.

Definition adolescent_EER (age height weight : float) (gender activity_level : string)
  : result float :=
  if String.eqb gender "M" then
    if String.eqb activity_level "inactive" then
      Return (-447.51 + (3.68 * age) + (13.01 * height) + (13.15 * weight) + 20)
    else if String.eqb activity_level "low_active" then
      Return (19.12 + (3.68 * age) + (8.62 * height) + (20.28 * weight) + 20)
    else if String.eqb activity_level "active" then
      Return (-388.19 + (3.68 * age) + (12.66 * height) + (20.46 * weight) + 20)
    else if String.eqb activity_level "very_active" then
      Return (-671.75 + (3.68 * age) + (15.38 * height) + (23.25 * weight) + 20)
    else FallThrough
  else if String.eqb gender "F" then
    if String.eqb activity_level "inactive" then
      Return (55.59 - (22.25 * age) + (8.43 * height) + (17.07 * weight) + 20)
    else if String.eqb activity_level "low_active" then
      Return (-297.54 - (22.25 * age) + (12.77 * height) + (14.73 * weight) + 20)
    else if String.eqb activity_level "active" then
      Return (-189.55 - (22.25 * age) + (11.74 * height) + (18.34 * weight) + 20)
    else if String.eqb activity_level "very_active" then
      Return (-709.59 - (22.25 * age) + (18.22 * height) + (14.25 * weight) + 20)
    else FallThrough
  else FallThrough.

Definition adult_EER (age height weight : float) (gender activity_level : string)
  : result float :=
  if String.eqb gender "M" then
    if String.eqb activity_level "inactive" then
      Return (753.07 - (10.83 * age) + (6.50 * height) + (14.10 * weight))
    else if String.eqb activity_level "low_active" then
      Return (581.47 - (10.83 * age) + (8.30 * height) + (14.94 * weight))
    else if String.eqb activity_level "active" then
      Return (1004.82 - (10.83 * age) + (6.52 * height) + (15.91 * weight))
    else if String.eqb activity_level "very_active" then
      Return (-517.88 - (10.83 * age) + (15.61 * height) + (19.11 * weight))
    else FallThrough
  else if String.eqb gender "F" then
    if String.eqb activity_level "inactive" then
      Return (584.90 - (7.01 * age) + (5.72 * height) + (11.71 * weight))
    else if String.eqb activity_level "low_active" then
      Return (575.77 - (7.01 * age) + (6.60 * height) + (12.14 * weight))
    else if String.eqb activity_level "active" then
      Return (710.25 - (7.01 * age) + (6.54 * height) + (12.34 * weight))
    else if String.eqb activity_level "very_active" then
      Return (511.83 - (7.01 * age) + (9.07 * height) + (12.56 * weight))
    else FallThrough
  else FallThrough.

Definition calc_EER (age height weight : float) (gender activity_level : string)
  : result float :=
  raise_if (negb (14 <=? age))
    (ValueError "Age must be at least 14 years") ;;
  raise_if (negb (str_in gender genders))
    (ValueError "Gender must be 'M' for male or 'F' for female") ;;
  raise_if (negb (str_in activity_level activity_levels))
    (ValueError "Activity level must be one of: 'inactive', 'low_active', 'active', 'very_active'") ;;
  if (14 <=? age) && (age <? 19)
  then adolescent_EER age height weight gender activity_level
  else adult_EER age height weight gender activity_level.

Definition validate_inputs (age : float) (gender activity_level : string) (eer : float)
  : result unit :=
  raise_if (negb (14 <=? age))
    (ValueError "Age must be at least 14 years") ;;
  raise_if (negb (str_in gender genders))
    (ValueError "Gender must be 'M' for male or 'F' for female") ;;
  raise_if (negb (str_in activity_level activity_levels))
    (ValueError "Activity level must be one of: 'inactive', 'low_active', 'active', 'very_active'") ;;
  raise_if (negb (0 <? eer))
    (ValueError "EER must be a positive value").

Record outline : Type := {
  recommended_intake : Z;
  lower_limit : Z;
  upper_limit : Z;
  units : string
}.

Definition generate_carbohydrates_outline
  (age : float) (gender activity_level : string) (eer : float) : result outline :=
  validate_inputs age gender activity_level eer ;;
  recommended <- round (0.55 * eer / 4) ;;
  lower <- round (0.45 * eer / 4) ;;
  upper <- round (0.65 * eer / 4) ;;
  let carbs_outline :=
    {| recommended_intake := recommended;
       lower_limit := lower;
       upper_limit := upper;
       units := "g" |} in
  Return carbs_outline.

(** The three checks of [calc_EER] pass; [age >= 14] is false of NaN. *)
Definition valid_eer_input (age : float) (gender activity_level : string) : Prop :=
  (14 <=? age) = true /\ valid_gender gender /\ valid_activity_level activity_level.

Definition raises_invalid_argument {A : Type} (r : result A) : Prop :=
  exists msg, r = Raise (ValueError msg).

Definition returns {A : Type} (r : result A) : Prop := exists v, r = Return v.

End Binary64.

(** * Properties *)

(** ** Comparisons *)

Lemma Qle_bool_true (x y : Q) : (x <=? y) = true <-> x <= y.
Proof. apply Qle_bool_iff. Qed.

Lemma Qle_bool_false (x y : Q) : (x <=? y) = false <-> y < x.
Proof.
  split; intro H.
  - apply Qnot_le_lt. intro L. apply Qle_bool_iff in L. congruence.
  - destruct (x <=? y) eqn:E; [|reflexivity].
    apply Qle_bool_iff in E. exfalso. exact (Qlt_not_le _ _ H E).
Qed.

Lemma Qlt_bool_true (x y : Q) : (x <? y) = true <-> x < y.
Proof.
  unfold Qlt_bool. rewrite negb_true_iff. apply Qle_bool_false.
Qed.

Lemma Qlt_bool_false (x y : Q) : (x <? y) = false <-> y <= x.
Proof.
  unfold Qlt_bool. rewrite negb_false_iff. apply Qle_bool_true.
Qed.

Lemma py_max_spec (a b : Q) : a <= py_max a b /\ b <= py_max a b.
Proof.
  unfold py_max. destruct (a <? b) eqn:E.
  - apply Qlt_bool_true in E. split; [apply Qlt_le_weak; exact E | apply Qle_refl].
  - apply Qlt_bool_false in E. split; [apply Qle_refl | exact E].
Qed.

Lemma py_max_cases (a b : Q) : py_max a b = a \/ py_max a b = b.
Proof. unfold py_max. destruct (a <? b); auto. Qed.

Lemma py_min_spec (a b : Q) : py_min a b <= a /\ py_min a b <= b.
Proof.
  unfold py_min. destruct (b <? a) eqn:E.
  - apply Qlt_bool_true in E. split; [apply Qlt_le_weak; exact E | apply Qle_refl].
  - apply Qlt_bool_false in E. split; [apply Qle_refl | exact E].
Qed.

(** The EER adjustment [min(hi, max(lo, x))] stays in its window. *)
Lemma clamp_bounds (lo hi x : Q) :
  lo <= hi -> lo <= py_min hi (py_max lo x) <= hi.
Proof.
  intro H. split; [| apply py_min_spec].
  unfold py_min. destruct (py_max lo x <? hi); [apply py_max_spec | exact H].
Qed.

(** ** Rounding *)

#[export] Instance round_half_even_comp : Proper (Qeq ==> eq) round_half_even.
Proof.
  intros x y E. unfold round_half_even.
  rewrite (Qfloor_comp _ _ E).
  assert (C : (x - inject_Z (Qfloor y) ?= 1 # 2) = (y - inject_Z (Qfloor y) ?= 1 # 2)).
  { apply Qcompare_comp; [rewrite E|]; reflexivity. }
  rewrite C. reflexivity.
Qed.

#[export] Instance round_comp : Proper (Qeq ==> eq) round.
Proof. intros x y E. unfold round. rewrite E. reflexivity. Qed.

#[export] Instance round1_comp : Proper (Qeq ==> eq) round1.
Proof. intros x y E. unfold round1. rewrite E. reflexivity. Qed.

Lemma round_half_even_floor (x : Q) :
  (Qfloor x <= round_half_even x <= Qfloor x + 1)%Z.
Proof.
  unfold round_half_even.
  destruct (x - inject_Z (Qfloor x) ?= 1 # 2); [destruct (Z.even (Qfloor x))| |]; lia.
Qed.

Lemma round_half_even_Z (n : Z) : round_half_even (inject_Z n) = n.
Proof.
  unfold round_half_even. rewrite Qfloor_Z.
  assert (E : (inject_Z n - inject_Z n ?= 1 # 2) = Lt).
  { rewrite <- Qlt_alt. lra. }
  rewrite E. reflexivity.
Qed.

Lemma round_half_even_mono (x y : Q) :
  x <= y -> (round_half_even x <= round_half_even y)%Z.
Proof.
  intro H.
  pose proof (Qfloor_resp_le _ _ H) as F.
  pose proof (round_half_even_floor x) as Bx.
  pose proof (round_half_even_floor y) as By.
  destruct (Z.eq_dec (Qfloor x) (Qfloor y)) as [E|NE]; [|lia].
  unfold round_half_even in *. rewrite <- E in *.
  destruct (x - inject_Z (Qfloor x) ?= 1 # 2) eqn:Cx;
    destruct (y - inject_Z (Qfloor x) ?= 1 # 2) eqn:Cy;
    try (destruct (Z.even (Qfloor x))); try lia;
    try rewrite <- Qeq_alt in *; try rewrite <- Qlt_alt in *;
    try rewrite <- Qgt_alt in *; exfalso; lra.
Qed.

Lemma round_mono (x y : Q) : x <= y -> round x <= round y.
Proof.
  intro H. unfold round. rewrite <- Zle_Qle. apply round_half_even_mono, H.
Qed.

Lemma round_inject_Z (n : Z) : round (inject_Z n) = inject_Z n.
Proof. unfold round. rewrite round_half_even_Z. reflexivity. Qed.

Lemma round_round (x : Q) : round (round x) = round x.
Proof. unfold round. rewrite round_half_even_Z. reflexivity. Qed.

Lemma round1_mono (x y : Q) : x <= y -> round1 x <= round1 y.
Proof.
  intro H. unfold round1.
  assert (M : inject_Z (round_half_even (x * 10)) <= inject_Z (round_half_even (y * 10))).
  { rewrite <- Zle_Qle. apply round_half_even_mono. lra. }
  unfold Qdiv. apply Qmult_le_compat_r; [exact M | vm_compute; discriminate].
Qed.

Lemma round1_round1 (x : Q) : round1 (round1 x) == round1 x.
Proof.
  unfold round1 at 1 3.
  assert (E : inject_Z (round_half_even (x * 10)) / 10 * 10
              == inject_Z (round_half_even (x * 10))) by (field).
  rewrite E, round_half_even_Z. reflexivity.
Qed.

(** ** Input validation *)

Lemma str_in_In (x : string) (l : list string) : str_in x l = true <-> In x l.
Proof.
  induction l as [|y l IH]; simpl.
  - split; [discriminate | tauto].
  - rewrite orb_true_iff, IH, String.eqb_eq. split; intros [H|H]; auto.
Qed.

Lemma str_in_not_In (x : string) (l : list string) :
  str_in x l = false <-> ~ In x l.
Proof.
  rewrite <- str_in_In. destruct (str_in x l); split; congruence.
Qed.

Lemma valid_or_invalid_outline_input age gender activity_level eer :
  valid_outline_input age gender activity_level eer \/
  invalid_outline_input age gender activity_level eer.
Proof.
  unfold valid_outline_input, invalid_outline_input, valid_age,
    valid_gender, valid_activity_level.
  destruct (14 <=? age) eqn:A;
    [apply Qle_bool_true in A | apply Qle_bool_false in A; auto].
  destruct (str_in gender genders) eqn:G;
    [apply str_in_In in G | apply str_in_not_In in G; auto].
  destruct (str_in activity_level activity_levels) eqn:L;
    [apply str_in_In in L | apply str_in_not_In in L; auto].
  destruct (0 <? eer) eqn:E;
    [apply Qlt_bool_true in E | apply Qlt_bool_false in E; auto 6].
  left; auto.
Qed.

Lemma valid_not_invalid_outline_input age gender activity_level eer :
  valid_outline_input age gender activity_level eer ->
  ~ invalid_outline_input age gender activity_level eer.
Proof.
  intros (A & G & L & E) [H|[H|[H|H]]]; unfold valid_age in *;
    try tauto; lra.
Qed.

Lemma validate_inputs_valid age gender activity_level eer :
  valid_outline_input age gender activity_level eer ->
  validate_inputs age gender activity_level eer = Return tt.
Proof.
  intros (A & G & L & E). unfold validate_inputs.
  apply Qle_bool_true in A. apply str_in_In in G. apply str_in_In in L.
  apply Qlt_bool_true in E. rewrite A, G, L, E. reflexivity.
Qed.

Lemma validate_inputs_invalid age gender activity_level eer :
  invalid_outline_input age gender activity_level eer ->
  exists msg,
    validate_inputs age gender activity_level eer = Raise (ValueError msg).
Proof.
  intro H. unfold validate_inputs.
  destruct (14 <=? age) eqn:A; [|eexists; reflexivity].
  destruct (str_in gender genders) eqn:G; [|eexists; reflexivity].
  destruct (str_in activity_level activity_levels) eqn:L; [|eexists; reflexivity].
  destruct (0 <? eer) eqn:E; [|eexists; reflexivity].
  exfalso. apply Qle_bool_true in A. apply str_in_In in G.
  apply str_in_In in L. apply Qlt_bool_true in E.
  apply (valid_not_invalid_outline_input age gender activity_level eer);
    [repeat split; assumption | exact H].
Qed.

(** ** Bounds on an adjusted, rounded intake *)

Lemma Qmult_le_compat_l_nonneg (c x y : Q) : 0 <= c -> x <= y -> c * x <= c * y.
Proof.
  intros C H. rewrite (Qmult_comm c x), (Qmult_comm c y).
  apply Qmult_le_compat_r; assumption.
Qed.

Section Adjusted.
(** [c] is the base value times the activity multiplier, [lo] and [hi] the
    ends of the EER window and [x] the ratio [eer / reference_eer]. *)
Variables c lo hi x : Q.
Hypothesis window : lo <= hi.
Hypothesis c_nonneg : 0 <= c.

Lemma adj_scaled :
  c * lo <= c * py_min hi (py_max lo x) <= c * hi.
Proof.
  destruct (clamp_bounds lo hi x window) as [L U].
  split; apply Qmult_le_compat_l_nonneg; assumption.
Qed.

Lemma adj_round_lower (L : Q) :
  L <= round (c * lo) -> L <= round (c * py_min hi (py_max lo x)).
Proof.
  intro H. eapply Qle_trans; [exact H|]. apply round_mono, adj_scaled.
Qed.

Lemma adj_round_upper (U : Q) :
  round (c * hi) <= U -> round (c * py_min hi (py_max lo x)) <= U.
Proof.
  intro H. eapply Qle_trans; [|exact H]. apply round_mono, adj_scaled.
Qed.

Lemma adj_round1_lower (L : Q) :
  L <= round1 (c * lo) -> L <= round1 (c * py_min hi (py_max lo x)).
Proof.
  intro H. eapply Qle_trans; [exact H|]. apply round1_mono, adj_scaled.
Qed.

Lemma adj_round1_upper (U : Q) :
  round1 (c * hi) <= U -> round1 (c * py_min hi (py_max lo x)) <= U.
Proof.
  intro H. eapply Qle_trans; [|exact H]. apply round1_mono, adj_scaled.
Qed.
End Adjusted.

(** An upper limit derived as a multiple of the intake lies above it. *)
Lemma scale_upper (k r : Q) : 1 <= k -> 0 <= r -> r <= k * r.
Proof. intros K R. nra. Qed.

Lemma round_scale_upper (k y : Q) :
  1 <= k -> 0 <= round y -> round y <= round (k * round y).
Proof.
  intros K R. rewrite <- (round_round y) at 1.
  apply round_mono, scale_upper; assumption.
Qed.

Lemma round1_scale_upper (k y : Q) :
  1 <= k -> 0 <= round1 y -> round1 y <= round1 (k * round1 y).
Proof.
  intros K R. rewrite <- (round1_round1 y) at 1.
  apply round1_mono, scale_upper; assumption.
Qed.

Lemma py_max_upper_r (a b r : Q) : r <= b -> r <= py_max a b.
Proof. intro H. eapply Qle_trans; [exact H | apply py_max_spec]. Qed.

Lemma py_max_round_lower (a b L : Q) : L <= round a -> L <= round (py_max a b).
Proof.
  intro H. eapply Qle_trans; [exact H | apply round_mono, py_max_spec].
Qed.

(** ** Case analysis on a valid input *)

Ltac closed_Qle := apply Qle_bool_iff; vm_compute; reflexivity.

Ltac destruct_valid H :=
  let A := fresh "Hage" in
  let G := fresh "Hgender" in
  let L := fresh "Hactivity" in
  let E := fresh "Heer" in
  destruct H as (A & G & L & E);
  unfold valid_gender, valid_activity_level, genders, activity_levels in G, L;
  simpl in G, L;
  destruct G as [G|[G|[]]]; destruct L as [L|[L|[L|[L|[]]]]];
  symmetry in G, L; subst.

Ltac outline_cbn :=
  cbn [bind dict_get String.eqb Ascii.eqb Bool.eqb andb negb
       set_base set_recommended_intake set_lower_limit set_upper_limit
       empty_outline reference_eer
       recommended_intake lower_limit upper_limit units
       fiber_activity_multipliers protein_activity_multipliers
       vitamin_a_activity_multipliers vitamin_c_activity_multipliers
       vitamin_d_activity_multipliers vitamin_b6_activity_multipliers
       vitamin_e_activity_multipliers vitamin_k_activity_multipliers
       thiamin_activity_multipliers vitamin_b12_activity_multipliers
       riboflavin_activity_multipliers folate_activity_multipliers
       niacin_activity_multipliers choline_activity_multipliers
       pantothenic_acid_activity_multipliers biotin_activity_multipliers
       calcium_activity_multipliers chloride_activity_multipliers
       chromium_activity_multipliers copper_activity_multipliers
       fluoride_activity_multipliers iodine_activity_multipliers
       iron_activity_multipliers magnesium_activity_multipliers
       manganese_activity_multipliers molybdenum_activity_multipliers
       phosphorus_activity_multipliers potassium_activity_multipliers
       selenium_activity_multipliers sodium_activity_multipliers
       zinc_activity_multipliers].

(** Every outcome of the comparisons the code makes on [age]. *)
Ltac split_age age :=
  repeat match goal with
  | |- context [Qle_bool age ?b] => destruct (Qle_bool age b) eqn:?
  | |- context [Qle_bool ?b age] => destruct (Qle_bool b age) eqn:?
  | |- context [Qlt_bool age ?b] => destruct (Qlt_bool age b) eqn:?
  | |- context [Qlt_bool ?b age] => destruct (Qlt_bool b age) eqn:?
  end.

Ltac lower_bound :=
  lazymatch goal with
  | |- _ <= round (?c * py_min ?hi (py_max ?lo ?x)) =>
      apply (adj_round_lower c lo hi x); closed_Qle
  | |- _ <= round1 (?c * py_min ?hi (py_max ?lo ?x)) =>
      apply (adj_round1_lower c lo hi x); closed_Qle
  | |- _ <= round (py_max ?a ?b) =>
      apply (py_max_round_lower a b); closed_Qle
  end.

Ltac upper_bound :=
  lazymatch goal with
  | |- ?r <= py_max ?a (?k * ?r) =>
      apply (py_max_upper_r a (k * r) r), (scale_upper k r);
      [closed_Qle | lower_bound]
  | |- round ?y <= round (?k * round ?y) =>
      apply (round_scale_upper k y); [closed_Qle | lower_bound]
  | |- round1 ?y <= round1 (?k * round1 ?y) =>
      apply (round1_scale_upper k y); [closed_Qle | lower_bound]
  | |- ?r <= ?k * ?r =>
      apply (scale_upper k r); [closed_Qle | lower_bound]
  | |- round (?c * py_min ?hi (py_max ?lo ?x)) <= _ =>
      apply (adj_round_upper c lo hi x); closed_Qle
  | |- round1 (?c * py_min ?hi (py_max ?lo ?x)) <= _ =>
      apply (adj_round1_upper c lo hi x); closed_Qle
  end.

Ltac outline_bounds H age :=
  rewrite (validate_inputs_valid _ _ _ _ H);
  destruct_valid H;
  match goal with A : valid_age age |- _ =>
    rewrite ?(proj2 (Qle_bool_true 14 age) A) end;
  split_age age; outline_cbn;
  (eexists; split; [reflexivity|]);
  unfold well_ordered; outline_cbn;
  rewrite ?round_round;
  (split; [lower_bound | upper_bound]).

(** ** The outline invariant, generator by generator *)

Section Invariant.
Variables (age : Q) (gender activity_level : string) (eer : Q).
Hypothesis valid : valid_outline_input age gender activity_level eer.

Lemma carbohydrates_well_ordered :
  exists o, generate_carbohydrates_outline age gender activity_level eer = Return o
            /\ well_ordered o.
Proof.
  unfold generate_carbohydrates_outline.
  rewrite (validate_inputs_valid _ _ _ _ valid).
  destruct valid as (_ & _ & _ & E).
  eexists; split; [reflexivity|].
  split; apply round_mono; unfold Qdiv;
    (apply Qmult_le_compat_r; [apply Qmult_le_compat_r; [closed_Qle | lra] | closed_Qle]).
Qed.

Lemma fat_well_ordered :
  exists o, generate_fat_outline age gender activity_level eer = Return o
            /\ well_ordered o.
Proof.
  unfold generate_fat_outline.
  rewrite (validate_inputs_valid _ _ _ _ valid).
  destruct valid as (_ & _ & _ & E).
  eexists; split; [reflexivity|].
  split; apply round_mono; unfold Qdiv;
    (apply Qmult_le_compat_r; [apply Qmult_le_compat_r; [closed_Qle | lra] | closed_Qle]).
Qed.

Lemma fiber_well_ordered :
  exists o, generate_fiber_outline age gender activity_level eer = Return o
            /\ well_ordered o.
Proof. unfold generate_fiber_outline. outline_bounds valid age. Qed.

Lemma protein_well_ordered :
  exists o, generate_protein_outline age gender activity_level eer = Return o
            /\ well_ordered o.
Proof. unfold generate_protein_outline. outline_bounds valid age. Qed.

Lemma vitamin_a_well_ordered :
  exists o, generate_vitamin_a_outline age gender activity_level eer = Return o
            /\ well_ordered o.
Proof. unfold generate_vitamin_a_outline. outline_bounds valid age. Qed.

Lemma vitamin_c_well_ordered :
  exists o, generate_vitamin_c_outline age gender activity_level eer = Return o
            /\ well_ordered o.
Proof. unfold generate_vitamin_c_outline. outline_bounds valid age. Qed.

Lemma vitamin_d_well_ordered :
  exists o, generate_vitamin_d_outline age gender activity_level eer = Return o
            /\ well_ordered o.
Proof. unfold generate_vitamin_d_outline. outline_bounds valid age. Qed.

Lemma vitamin_b6_well_ordered :
  exists o, generate_vitamin_b6_outline age gender activity_level eer = Return o
            /\ well_ordered o.
Proof. unfold generate_vitamin_b6_outline. outline_bounds valid age. Qed.

Lemma vitamin_e_well_ordered :
  exists o, generate_vitamin_e_outline age gender activity_level eer = Return o
            /\ well_ordered o.
Proof. unfold generate_vitamin_e_outline. outline_bounds valid age. Qed.

Lemma vitamin_k_well_ordered :
  exists o, generate_vitamin_k_outline age gender activity_level eer = Return o
            /\ well_ordered o.
Proof. unfold generate_vitamin_k_outline. outline_bounds valid age. Qed.

Lemma thiamin_well_ordered :
  exists o, generate_thiamin_outline age gender activity_level eer = Return o
            /\ well_ordered o.
Proof. unfold generate_thiamin_outline. outline_bounds valid age. Qed.

Lemma vitamin_b12_well_ordered :
  exists o, generate_vitamin_b12_outline age gender activity_level eer = Return o
            /\ well_ordered o.
Proof. unfold generate_vitamin_b12_outline. outline_bounds valid age. Qed.

Lemma riboflavin_well_ordered :
  exists o, generate_riboflavin_outline age gender activity_level eer = Return o
            /\ well_ordered o.
Proof. unfold generate_riboflavin_outline. outline_bounds valid age. Qed.

Lemma folate_well_ordered :
  exists o, generate_folate_outline age gender activity_level eer = Return o
            /\ well_ordered o.
Proof. unfold generate_folate_outline. outline_bounds valid age. Qed.

Lemma niacin_well_ordered :
  exists o, generate_niacin_outline age gender activity_level eer = Return o
            /\ well_ordered o.
Proof. unfold generate_niacin_outline. outline_bounds valid age. Qed.

Lemma choline_well_ordered :
  exists o, generate_choline_outline age gender activity_level eer = Return o
            /\ well_ordered o.
Proof. unfold generate_choline_outline. outline_bounds valid age. Qed.

Lemma pantothenic_acid_well_ordered :
  exists o, generate_pantothenic_acid_outline age gender activity_level eer = Return o
            /\ well_ordered o.
Proof. unfold generate_pantothenic_acid_outline. outline_bounds valid age. Qed.

Lemma biotin_well_ordered :
  exists o, generate_biotin_outline age gender activity_level eer = Return o
            /\ well_ordered o.
Proof. unfold generate_biotin_outline. outline_bounds valid age. Qed.

Lemma calcium_well_ordered :
  exists o, generate_calcium_outline age gender activity_level eer = Return o
            /\ well_ordered o.
Proof. unfold generate_calcium_outline. outline_bounds valid age. Qed.

Lemma chloride_well_ordered :
  exists o, generate_chloride_outline age gender activity_level eer = Return o
            /\ well_ordered o.
Proof. unfold generate_chloride_outline. outline_bounds valid age. Qed.

Lemma chromium_well_ordered :
  exists o, generate_chromium_outline age gender activity_level eer = Return o
            /\ well_ordered o.
Proof. unfold generate_chromium_outline. outline_bounds valid age. Qed.

Lemma copper_well_ordered :
  exists o, generate_copper_outline age gender activity_level eer = Return o
            /\ well_ordered o.
Proof. unfold generate_copper_outline. outline_bounds valid age. Qed.

Lemma fluoride_well_ordered :
  exists o, generate_fluoride_outline age gender activity_level eer = Return o
            /\ well_ordered o.
Proof. unfold generate_fluoride_outline. outline_bounds valid age. Qed.

Lemma iodine_well_ordered :
  exists o, generate_iodine_outline age gender activity_level eer = Return o
            /\ well_ordered o.
Proof. unfold generate_iodine_outline. outline_bounds valid age. Qed.

Lemma iron_well_ordered :
  exists o, generate_iron_outline age gender activity_level eer = Return o
            /\ well_ordered o.
Proof. unfold generate_iron_outline. outline_bounds valid age. Qed.

Lemma magnesium_well_ordered :
  exists o, generate_magnesium_outline age gender activity_level eer = Return o
            /\ well_ordered o.
Proof. unfold generate_magnesium_outline. outline_bounds valid age. Qed.

Lemma manganese_well_ordered :
  exists o, generate_manganese_outline age gender activity_level eer = Return o
            /\ well_ordered o.
Proof. unfold generate_manganese_outline. outline_bounds valid age. Qed.

Lemma molybdenum_well_ordered :
  exists o, generate_molybdenum_outline age gender activity_level eer = Return o
            /\ well_ordered o.
Proof. unfold generate_molybdenum_outline. outline_bounds valid age. Qed.

Lemma phosphorus_well_ordered :
  exists o, generate_phosphorus_outline age gender activity_level eer = Return o
            /\ well_ordered o.
Proof. unfold generate_phosphorus_outline. outline_bounds valid age. Qed.

Lemma potassium_well_ordered :
  exists o, generate_potassium_outline age gender activity_level eer = Return o
            /\ well_ordered o.
Proof. unfold generate_potassium_outline. outline_bounds valid age. Qed.

Lemma selenium_well_ordered :
  exists o, generate_selenium_outline age gender activity_level eer = Return o
            /\ well_ordered o.
Proof. unfold generate_selenium_outline. outline_bounds valid age. Qed.

Lemma sodium_well_ordered :
  exists o, generate_sodium_outline age gender activity_level eer = Return o
            /\ well_ordered o.
Proof. unfold generate_sodium_outline. outline_bounds valid age. Qed.

Lemma zinc_well_ordered :
  exists o, generate_zinc_outline age gender activity_level eer = Return o
            /\ well_ordered o.
Proof. unfold generate_zinc_outline. outline_bounds valid age. Qed.
End Invariant.

(** ** The generators as a family *)

Lemma generator_well_ordered (n : nutrient) age gender activity_level eer :
  valid_outline_input age gender activity_level eer ->
  exists o, generator n age gender activity_level eer = Return o /\ well_ordered o.
Proof.
  intro H. destruct n; simpl.
  - apply carbohydrates_well_ordered, H.
  - apply fiber_well_ordered, H.
  - apply protein_well_ordered, H.
  - apply fat_well_ordered, H.
  - apply vitamin_a_well_ordered, H.
  - apply vitamin_c_well_ordered, H.
  - apply vitamin_d_well_ordered, H.
  - apply vitamin_b6_well_ordered, H.
  - apply vitamin_e_well_ordered, H.
  - apply vitamin_k_well_ordered, H.
  - apply thiamin_well_ordered, H.
  - apply vitamin_b12_well_ordered, H.
  - apply riboflavin_well_ordered, H.
  - apply folate_well_ordered, H.
  - apply niacin_well_ordered, H.
  - apply choline_well_ordered, H.
  - apply pantothenic_acid_well_ordered, H.
  - apply biotin_well_ordered, H.
  - apply calcium_well_ordered, H.
  - apply chloride_well_ordered, H.
  - apply chromium_well_ordered, H.
  - apply copper_well_ordered, H.
  - apply fluoride_well_ordered, H.
  - apply iodine_well_ordered, H.
  - apply iron_well_ordered, H.
  - apply magnesium_well_ordered, H.
  - apply manganese_well_ordered, H.
  - apply molybdenum_well_ordered, H.
  - apply phosphorus_well_ordered, H.
  - apply potassium_well_ordered, H.
  - apply selenium_well_ordered, H.
  - apply sodium_well_ordered, H.
  - apply zinc_well_ordered, H.
Qed.

Lemma generator_returns (n : nutrient) age gender activity_level eer :
  valid_outline_input age gender activity_level eer ->
  exists o, generator n age gender activity_level eer = Return o.
Proof.
  intro H. destruct (generator_well_ordered n _ _ _ _ H) as (o & E & _).
  exists o. exact E.
Qed.

(** Every generator starts with the validation: what it raises, the
    generator raises. *)
Lemma generator_validates (n : nutrient) age gender activity_level eer e :
  validate_inputs age gender activity_level eer = Raise e ->
  generator n age gender activity_level eer = Raise e.
Proof.
  intro H. destruct n; simpl;
    match goal with |- ?g _ _ _ _ = _ => unfold g end;
    rewrite H; reflexivity.
Qed.

Lemma all_nutrients_complete (n : nutrient) : In n all_nutrients.
Proof. destruct n; simpl; tauto. Qed.

Lemma all_nutrients_count : length all_nutrients = 33%nat.
Proof. reflexivity. Qed.

(** C1: for every nutrient outline generator and every valid input
    (age >= 14, gender M or F, one of the four activity levels, eer > 0) the
    generator returns an outline, and that outline satisfies
    lower_limit <= recommended_intake <= upper_limit. *)
Theorem outline_limits_ordered
  (n : nutrient) (age : Q) (gender activity_level : string) (eer : Q) :
  valid_outline_input age gender activity_level eer ->
  exists o,
    generator n age gender activity_level eer = Return o /\
    lower_limit o <= recommended_intake o /\
    recommended_intake o <= upper_limit o.
Proof.
  intro H.
  destruct (generator_well_ordered n _ _ _ _ H) as (o & E & L & U).
  exists o. auto.
Qed.

Lemma valid_example_input : valid_outline_input 25 "M" "active" 2956.17.
Proof.
  split; [apply Qle_bool_iff; reflexivity|].
  split; [left; reflexivity|].
  split; [right; right; left; reflexivity | reflexivity].
Defined.

Lemma outline_limits_ordered_witness :
  exists o,
    generator N_sodium 25 "M" "active" 2956.17 = Return o /\
    lower_limit o <= recommended_intake o /\
    recommended_intake o <= upper_limit o.
Proof.
  exact (outline_limits_ordered N_sodium 25 "M" "active" 2956.17 valid_example_input).
Defined.

(** ** Errors *)

Lemma valid_or_invalid_eer_input age gender activity_level :
  valid_eer_input age gender activity_level \/
  invalid_eer_input age gender activity_level.
Proof.
  unfold valid_eer_input, invalid_eer_input, valid_age,
    valid_gender, valid_activity_level.
  destruct (14 <=? age) eqn:A;
    [apply Qle_bool_true in A | apply Qle_bool_false in A; auto].
  destruct (str_in gender genders) eqn:G;
    [apply str_in_In in G | apply str_in_not_In in G; auto].
  destruct (str_in activity_level activity_levels) eqn:L;
    [apply str_in_In in L | apply str_in_not_In in L; auto].
  left; auto.
Qed.

Lemma valid_not_invalid_eer_input age gender activity_level :
  valid_eer_input age gender activity_level ->
  ~ invalid_eer_input age gender activity_level.
Proof.
  intros (A & G & L) [H|[H|H]]; unfold valid_age in *; try tauto; lra.
Qed.

(** Past the checks, one of the sixteen equations returns. *)
Lemma calc_EER_valid age height weight gender activity_level :
  valid_eer_input age gender activity_level ->
  calc_EER age height weight gender activity_level =
    (if (14 <=? age) && (age <? 19)
     then adolescent_EER age height weight gender activity_level
     else adult_EER age height weight gender activity_level) /\
  (exists v, adolescent_EER age height weight gender activity_level = Return v) /\
  (exists v, adult_EER age height weight gender activity_level = Return v).
Proof.
  intros (A & G & L). unfold calc_EER.
  pose proof (proj2 (Qle_bool_true _ _) A) as A'.
  pose proof (proj2 (str_in_In _ _) G) as G'.
  pose proof (proj2 (str_in_In _ _) L) as L'.
  rewrite A', G', L'. split; [reflexivity|].
  unfold valid_gender, valid_activity_level, genders, activity_levels in G, L.
  simpl in G, L.
  destruct G as [G|[G|[]]]; destruct L as [L|[L|[L|[L|[]]]]];
    symmetry in G, L; subst;
    (split; eexists; reflexivity).
Qed.

Lemma calc_EER_returns age height weight gender activity_level :
  valid_eer_input age gender activity_level ->
  exists v, calc_EER age height weight gender activity_level = Return v.
Proof.
  intro H.
  destruct (calc_EER_valid age height weight _ _ H) as (E & [v1 E1] & [v2 E2]).
  rewrite E. destruct ((14 <=? age) && (age <? 19)); eauto.
Qed.

Lemma calc_EER_invalid age height weight gender activity_level :
  invalid_eer_input age gender activity_level ->
  exists msg,
    calc_EER age height weight gender activity_level = Raise (ValueError msg).
Proof.
  intro H. unfold calc_EER.
  destruct (14 <=? age) eqn:A; [|eexists; reflexivity].
  destruct (str_in gender genders) eqn:G; [|eexists; reflexivity].
  destruct (str_in activity_level activity_levels) eqn:L; [|eexists; reflexivity].
  exfalso. apply Qle_bool_true in A. apply str_in_In in G. apply str_in_In in L.
  apply (valid_not_invalid_eer_input age gender activity_level);
    [repeat split; assumption | exact H].
Qed.

(** [calc_EER] never runs past its equations. *)
Lemma calc_EER_never_falls_through age height weight gender activity_level :
  calc_EER age height weight gender activity_level <> FallThrough.
Proof.
  destruct (valid_or_invalid_eer_input age gender activity_level) as [V|I].
  - destruct (calc_EER_returns age height weight _ _ V) as [v E]. congruence.
  - destruct (calc_EER_invalid age height weight _ _ I) as [m E]. congruence.
Qed.

(** ** Errors in binary64 *)

Lemma binary64_valid_eer_input_dec
  (age : PrimFloat.float) (gender activity_level : string) :
  Binary64.valid_eer_input age gender activity_level \/
  ~ Binary64.valid_eer_input age gender activity_level.
Proof.
  unfold Binary64.valid_eer_input.
  destruct (PrimFloat.leb _ age); [|right; intros (A & _); discriminate A].
  destruct (str_in gender genders) eqn:G;
    [apply str_in_In in G | apply str_in_not_In in G; right; tauto].
  destruct (str_in activity_level activity_levels) eqn:L;
    [apply str_in_In in L | apply str_in_not_In in L; right; tauto].
  left. auto.
Qed.

Lemma calc_EER_binary64_returns
  (age height weight : PrimFloat.float) (gender activity_level : string) :
  Binary64.valid_eer_input age gender activity_level ->
  Binary64.returns (Binary64.calc_EER age height weight gender activity_level).
Proof.
  intros (A & G & L). unfold Binary64.calc_EER, Binary64.returns.
  rewrite A, (proj2 (str_in_In _ _) G), (proj2 (str_in_In _ _) L).
  unfold valid_gender, valid_activity_level, genders, activity_levels in G, L.
  simpl in G, L.
  destruct G as [G|[G|[]]]; destruct L as [L|[L|[L|[L|[]]]]];
    symmetry in G, L; subst;
    cbn [negb Binary64.raise_if Binary64.bind andb];
    destruct (PrimFloat.ltb age _); eexists; reflexivity.
Qed.

Lemma calc_EER_binary64_raises
  (age height weight : PrimFloat.float) (gender activity_level : string) :
  ~ Binary64.valid_eer_input age gender activity_level ->
  Binary64.raises_invalid_argument
    (Binary64.calc_EER age height weight gender activity_level).
Proof.
  intro N. unfold Binary64.calc_EER, Binary64.raises_invalid_argument.
  destruct (PrimFloat.leb _ age) eqn:A; [|eexists; reflexivity].
  destruct (str_in gender genders) eqn:G; [|eexists; reflexivity].
  destruct (str_in activity_level activity_levels) eqn:L; [|eexists; reflexivity].
  exfalso. apply N. split; [exact A|].
  split; [apply str_in_In, G | apply str_in_In, L].
Qed.

(** C2, amended: for numbers within the binary64 range, every nutrient
    outline generator raises ValueError exactly when the input is invalid
    (age < 14, gender not M or F, unknown activity level, or eer <= 0) and
    returns an outline exactly when it is valid, and so does calc_EER with
    its three checks; over the floats themselves, infinities and NaN
    included, calc_EER raises ValueError exactly when one of its checks
    fails (age >= 14 is false of NaN) and returns a float otherwise. *)
Theorem error_iff_invalid_finite_input :
  (forall n age gender activity_level eer,
     eer <= float_max ->
     (raises_invalid_argument (generator n age gender activity_level eer)
        <-> invalid_outline_input age gender activity_level eer) /\
     (returns (generator n age gender activity_level eer)
        <-> valid_outline_input age gender activity_level eer)) /\
  (forall age height weight gender activity_level,
     binary64_range age -> binary64_range height -> binary64_range weight ->
     (raises_invalid_argument (calc_EER age height weight gender activity_level)
        <-> invalid_eer_input age gender activity_level) /\
     (returns (calc_EER age height weight gender activity_level)
        <-> valid_eer_input age gender activity_level)) /\
  (forall (age height weight : PrimFloat.float) gender activity_level,
     (Binary64.raises_invalid_argument
        (Binary64.calc_EER age height weight gender activity_level)
        <-> ~ Binary64.valid_eer_input age gender activity_level) /\
     (Binary64.returns
        (Binary64.calc_EER age height weight gender activity_level)
        <-> Binary64.valid_eer_input age gender activity_level)).
Proof.
  unfold raises_invalid_argument, returns. split; [|split].
  - intros n age gender activity_level eer _.
    destruct (valid_or_invalid_outline_input age gender activity_level eer)
      as [V|I].
    + destruct (generator_returns n _ _ _ _ V) as [o E].
      pose proof (valid_not_invalid_outline_input _ _ _ _ V) as NI.
      split; split; intro H; try tauto.
      * destruct H as [m R]. congruence.
      * eauto.
    + destruct (validate_inputs_invalid _ _ _ _ I) as [m R].
      apply (generator_validates n) in R.
      split; split; intro H; try tauto.
      * eauto.
      * destruct H as [o E]. congruence.
      * exfalso. exact (valid_not_invalid_outline_input _ _ _ _ H I).
  - intros age height weight gender activity_level _ _ _.
    destruct (valid_or_invalid_eer_input age gender activity_level) as [V|I].
    + destruct (calc_EER_returns age height weight _ _ V) as [v E].
      pose proof (valid_not_invalid_eer_input _ _ _ V) as NI.
      split; split; intro H; try tauto.
      * destruct H as [m R]. congruence.
      * eauto.
    + destruct (calc_EER_invalid age height weight _ _ I) as [m R].
      split; split; intro H; try tauto.
      * eauto.
      * destruct H as [o E]. congruence.
      * exfalso. exact (valid_not_invalid_eer_input _ _ _ H I).
  - intros age height weight gender activity_level.
    split; split.
    + intros [m R] V.
      destruct (calc_EER_binary64_returns age height weight _ _ V) as [v E].
      congruence.
    + apply calc_EER_binary64_raises.
    + intros [v E].
      destruct (binary64_valid_eer_input_dec age gender activity_level)
        as [V|N]; [exact V|].
      destruct (calc_EER_binary64_raises age height weight _ _ N) as [m R].
      congruence.
    + apply calc_EER_binary64_returns.
Qed.

Lemma error_iff_invalid_finite_input_witness :
  2956.17 <= float_max /\
  returns (generator N_sodium 25 "M" "active" 2956.17).
Proof.
  split; [apply Qle_bool_iff; vm_compute; reflexivity|].
  apply (proj1 error_iff_invalid_finite_input N_sodium 25 "M" "active" 2956.17).
  - apply Qle_bool_iff; vm_compute; reflexivity.
  - exact valid_example_input.
Defined.

(** ** Worked scenarios *)

(** C7: calc_EER(25, 170, 70, 'M', 'active') takes the adult branch, male,
    active: 1004.82 - (10.83*25) + (6.52*170) + (15.91*70), which is
    2956.17 kcal/day. *)
Theorem calc_EER_adult_male_active :
  calc_EER 25 170 70 "M" "active" = adult_EER 25 170 70 "M" "active" /\
  calc_EER 25 170 70 "M" "active"
    = Return (1004.82 - (10.83 * 25) + (6.52 * 170) + (15.91 * 70)) /\
  1004.82 - (10.83 * 25) + (6.52 * 170) + (15.91 * 70) == 2956.17.
Proof.
  split; [reflexivity|]. split; reflexivity.
Qed.

(** C9: generate_fat_outline(25, 'M', 'active', 2956.17) returns
    recommended_intake = round(.275*2956.17/9) = 90,
    lower_limit = round(.2*2956.17/9) = 66,
    upper_limit = round(.35*2956.17/9) = 115 and units = 'g'. *)
Theorem fat_outline_scenario :
  generate_fat_outline 25 "M" "active" 2956.17
    = Return {| recommended_intake := round (0.275 * 2956.17 / 9);
                lower_limit := round (0.2 * 2956.17 / 9);
                upper_limit := round (0.35 * 2956.17 / 9);
                units := "g" |} /\
  round (0.275 * 2956.17 / 9) = 90 /\
  round (0.2 * 2956.17 / 9) = 66 /\
  round (0.35 * 2956.17 / 9) = 115 /\
  generate_fat_outline 25 "M" "active" 2956.17
    = Return {| recommended_intake := 90; lower_limit := 66;
                upper_limit := 115; units := "g" |}.
Proof.
  repeat split; vm_compute; reflexivity.
Qed.

(** ** Evaluation in binary64 *)

Section Binary64Evaluation.
Import PrimFloat.
Local Open Scope float_scope.
#[local] Set Warnings "-inexact-float".

(** [float_max] is the value of the largest float; the next one up is
    infinity. *)
Lemma float_max_largest :
  FloatOps.Prim2SF 0x1.fffffffffffffp+1023
    = SpecFloat.S754_finite false (2 ^ 53 - 1) 971 /\
  Binary64.exact_value false (2 ^ 53 - 1) 971 = float_max /\
  next_up 0x1.fffffffffffffp+1023 = infinity.
Proof. repeat split; vm_compute; reflexivity. Qed.

(** C2, as stated, fails: generate_carbohydrates_outline(25, 'M', 'active',
    inf) passes the four checks (inf > 0) and then raises OverflowError from
    round, which is not the validation error; and calc_EER(nan, 170, 70, 'M',
    'active') raises the age error although nan < 14 is false. *)
Lemma infinite_eer_raises_overflow_error :
  Binary64.validate_inputs 25 "M" "active" infinity = Binary64.Return tt /\
  Binary64.generate_carbohydrates_outline 25 "M" "active" infinity
    = Binary64.Raise
        (Binary64.OverflowError "cannot convert float infinity to integer") /\
  (nan <? 14) = false /\
  Binary64.calc_EER nan 170 70 "M" "active"
    = Binary64.Raise (Binary64.ValueError "Age must be at least 14 years").
Proof. repeat split; vm_compute; reflexivity. Qed.

(** A finite profile is enough for an infinite EER: with a weight of 1e308
    calc_EER returns inf, on which the first generator the aggregator calls
    raises OverflowError. *)
Lemma finite_profile_with_infinite_eer :
  Binary64.calc_EER 25 170 1e308 "M" "active" = Binary64.Return infinity /\
  Binary64.generate_carbohydrates_outline 25 "M" "active" infinity
    = Binary64.Raise
        (Binary64.OverflowError "cannot convert float infinity to integer").
Proof. split; vm_compute; reflexivity. Qed.

(** At the largest float the three shares are still finite, and the
    generator returns. *)
Lemma carbohydrates_returns_at_float_max :
  Binary64.returns
    (Binary64.generate_carbohydrates_outline 25 "M" "active"
       0x1.fffffffffffffp+1023).
Proof. eexists. vm_compute. reflexivity. Qed.

(** Scenario 1 in binary64: the adult equation evaluates to the float
    2956.17. *)
Lemma calc_EER_adult_male_active_binary64 :
  Binary64.calc_EER 25 170 70 "M" "active" = Binary64.Return 2956.17.
Proof. vm_compute. reflexivity. Qed.

(** C8, as stated, fails: in binary64 calc_EER(14, 160, 50, 'M', 'inactive')
    returns 2363.1099999999997, which is not the float 2363.11. *)
Lemma calc_EER_adolescent_male_inactive_is_not_2363_11 :
  Binary64.calc_EER 14 160 50 "M" "inactive"
    = Binary64.Return 2363.1099999999997 /\
  (2363.1099999999997 =? 2363.11) = false /\
  Binary64.calc_EER 14 160 50 "M" "inactive" <> Binary64.Return 2363.11.
Proof.
  split; [vm_compute; reflexivity|]. split; [vm_compute; reflexivity|].
  intro H.
  apply (f_equal (fun r => match r with
                           | Binary64.Return x => x =? 2363.11
                           | _ => false
                           end)) in H.
  vm_compute in H. discriminate H.
Qed.

(** C8, amended: for an inactive male aged 14, 160 cm, 50 kg, calc_EER takes
    the adolescent branch, male, inactive, whose equation ends in the flat
    +20, and returns the binary64 value of
    -447.51 + (3.68*14) + (13.01*160) + (13.15*50) + 20, which is
    2363.1099999999997: the float next below 2363.11, which is the value of
    the equation in exact arithmetic. *)
Theorem calc_EER_adolescent_male_inactive :
  Binary64.calc_EER 14 160 50 "M" "inactive"
    = Binary64.adolescent_EER 14 160 50 "M" "inactive" /\
  Binary64.calc_EER 14 160 50 "M" "inactive"
    = Binary64.Return
        (-447.51 + (3.68 * 14) + (13.01 * 160) + (13.15 * 50) + 20) /\
  -447.51 + (3.68 * 14) + (13.01 * 160) + (13.15 * 50) + 20
    = 2363.1099999999997 /\
  next_up 2363.1099999999997 = 2363.11 /\
  (calc_EER 14 160 50 "M" "inactive"
     = adolescent_EER 14 160 50 "M" "inactive")%Q /\
  (calc_EER 14 160 50 "M" "inactive"
     = Return (-447.51 + (3.68 * 14) + (13.01 * 160) + (13.15 * 50) + 20))%Q /\
  (-447.51 + (3.68 * 14) + (13.01 * 160) + (13.15 * 50) + 20 == 2363.11)%Q.
Proof.
  repeat split; vm_compute; reflexivity.
Qed.

End Binary64Evaluation.

(** ** Activity multipliers *)

Lemma multipliers_within_Forall lo hi t :
  Forall (fun e => (lo <=? snd e) && (snd e <=? hi) = true) t ->
  multipliers_within lo hi t.
Proof.
  intros F k m I. rewrite Forall_forall in F. specialize (F _ I). simpl in F.
  apply andb_true_iff in F. destruct F as [A B].
  split; apply Qle_bool_iff; assumption.
Qed.

Ltac table_within :=
  apply multipliers_within_Forall; repeat constructor.

(** C5, as stated, fails: fiber's table starts at 0.95 and protein's
    reaches 1.5. *)
Lemma multipliers_outside_1_to_1_2 :
  activity_multipliers N_fiber = Some fiber_activity_multipliers /\
  In ("inactive", 0.95) fiber_activity_multipliers /\
  ~ 1 <= 0.95 /\
  activity_multipliers N_protein = Some protein_activity_multipliers /\
  In ("very_active", 1.5) protein_activity_multipliers /\
  ~ 1.5 <= 1.2 /\
  ~ (forall n t, activity_multipliers n = Some t -> multipliers_within 1 1.2 t).
Proof.
  assert (N : ~ 1 <= 0.95) by (intro H; apply Qle_bool_iff in H; discriminate).
  split; [reflexivity|]. split; [simpl; auto|]. split; [exact N|].
  split; [reflexivity|]. split; [simpl; auto 6|].
  split; [intro H; apply Qle_bool_iff in H; discriminate|].
  intro H. apply N.
  apply (H N_fiber fiber_activity_multipliers eq_refl "inactive" 0.95).
  simpl; auto.
Qed.

(** C5, amended: each table has the four activity levels as its keys; the
    entries lie in 1.00-1.20 for every generator but fiber (0.95-1.20) and
    protein (1.00-1.50). *)
Theorem multipliers_ranges (n : nutrient) (t : list (string * Q)) :
  activity_multipliers n = Some t ->
  keys t = activity_levels /\
  match n with
  | N_fiber => multipliers_within 0.95 1.2 t
  | N_protein => multipliers_within 1 1.5 t
  | _ => multipliers_within 1 1.2 t
  end.
Proof.
  intro H. destruct n; simpl in H; try discriminate;
    injection H as <-; (split; [reflexivity | table_within]).
Qed.

Lemma multipliers_ranges_witness :
  keys sodium_activity_multipliers = activity_levels /\
  multipliers_within 1 1.2 sodium_activity_multipliers.
Proof.
  exact (multipliers_ranges N_sodium sodium_activity_multipliers eq_refl).
Defined.

(** ** Protein upper limit *)

(** C6: for every valid input, generate_protein_outline returns an outline
    whose upper_limit is max(round(2.0 * estimated_weight),
    2 * recommended_intake), the estimated weight being 60/50 (male/female)
    for ages 14-18 and 70/57 otherwise; the generator takes no weight. *)
Theorem protein_upper_limit (age : Q) (gender activity_level : string) (eer : Q) :
  valid_outline_input age gender activity_level eer ->
  exists o,
    generate_protein_outline age gender activity_level eer = Return o /\
    upper_limit o =
      py_max (round (2.0 * estimated_body_weight age gender))
             (2 * recommended_intake o) /\
    round (2.0 * estimated_body_weight age gender) <= upper_limit o /\
    2 * recommended_intake o <= upper_limit o.
Proof.
  intro H. unfold generate_protein_outline, estimated_body_weight.
  rewrite (validate_inputs_valid _ _ _ _ H).
  destruct_valid H;
    destruct ((14 <=? age) && (age <=? 18));
    outline_cbn;
    (eexists; split; [reflexivity|]); outline_cbn;
    (split; [reflexivity | apply py_max_spec]).
Qed.

Lemma protein_upper_limit_witness :
  exists o,
    generate_protein_outline 25 "M" "active" 2956.17 = Return o /\
    upper_limit o =
      py_max (round (2.0 * estimated_body_weight 25 "M"))
             (2 * recommended_intake o) /\
    round (2.0 * estimated_body_weight 25 "M") <= upper_limit o /\
    2 * recommended_intake o <= upper_limit o.
Proof.
  exact (protein_upper_limit 25 "M" "active" 2956.17 valid_example_input).
Defined.

(** ** The aggregator *)

Lemma entry_assemble (f : nutrient -> outline) (n : nutrient) :
  entry (assemble f) (section_of n) (key_of n) = Some (f n).
Proof. destruct n; reflexivity. Qed.

Lemma returned_Return (r : result outline) :
  returns r -> r = Return (returned r).
Proof. intros [o E]. rewrite E. reflexivity. Qed.

Lemma bind_Return {A B : Type} (c : result A) (v : A) (k : A -> result B) :
  c = Return v -> bind c k = k v.
Proof. intro E. rewrite E. reflexivity. Qed.

(** The next call of the aggregator returns. *)
Ltac next_outline F n :=
  rewrite (bind_Return _ _ _ (returned_Return _ (F n))); cbv beta.

(** One EER, handed to every generator; the outlines are then assembled. *)
Lemma guideline_assembled age height weight gender activity_level eer :
  calc_EER age height weight gender activity_level = Return eer ->
  (forall n, returns (generator n age gender activity_level eer)) ->
  generate_nutritional_guideline age height weight gender activity_level
    = Return (assemble (fun n => returned (generator n age gender activity_level eer))).
Proof.
  intros E F. unfold generate_nutritional_guideline.
  rewrite (bind_Return _ _ _ E); cbv beta.
  next_outline F N_carbohydrates.
  next_outline F N_fiber.
  next_outline F N_protein.
  next_outline F N_fat.
  next_outline F N_vitamin_a.
  next_outline F N_vitamin_c.
  next_outline F N_vitamin_d.
  next_outline F N_vitamin_b6.
  next_outline F N_vitamin_e.
  next_outline F N_vitamin_k.
  next_outline F N_thiamin.
  next_outline F N_vitamin_b12.
  next_outline F N_riboflavin.
  next_outline F N_folate.
  next_outline F N_niacin.
  next_outline F N_choline.
  next_outline F N_pantothenic_acid.
  next_outline F N_biotin.
  next_outline F N_calcium.
  next_outline F N_chloride.
  next_outline F N_chromium.
  next_outline F N_copper.
  next_outline F N_fluoride.
  next_outline F N_iodine.
  next_outline F N_iron.
  next_outline F N_magnesium.
  next_outline F N_manganese.
  next_outline F N_molybdenum.
  next_outline F N_phosphorus.
  next_outline F N_potassium.
  next_outline F N_selenium.
  next_outline F N_sodium.
  next_outline F N_zinc.
  cbv beta zeta delta [assemble]. reflexivity.
Qed.

Lemma bind_Return_inv {A B : Type} (c : result A) (k : A -> result B) (r : B) :
  bind c k = Return r -> exists v, c = Return v /\ k v = Return r.
Proof.
  destruct c as [v| |]; simpl; intro H; try discriminate H.
  exists v. split; [reflexivity | exact H].
Qed.

(** The first thing that fails ends the call. *)
Lemma guideline_returns_inv age height weight gender activity_level g :
  generate_nutritional_guideline age height weight gender activity_level = Return g ->
  exists eer,
    calc_EER age height weight gender activity_level = Return eer /\
    (forall n, returns (generator n age gender activity_level eer)) /\
    g = assemble (fun n => returned (generator n age gender activity_level eer)).
Proof.
  intro H. pose proof H as H0. unfold generate_nutritional_guideline in H.
  apply bind_Return_inv in H. destruct H as (eer & E & H). cbv beta in H.
  assert (F : forall n, returns (generator n age gender activity_level eer)).
  { repeat match type of H with
    | bind _ _ = _ =>
        let v := fresh "v" in
        let R := fresh "R" in
        apply bind_Return_inv in H; destruct H as (v & R & H); cbv beta in H
    end.
    intro n; destruct n; cbv beta iota delta [generator];
      eexists; eassumption. }
  exists eer. split; [exact E|]. split; [exact F|].
  rewrite (guideline_assembled _ _ _ _ _ _ E F) in H0.
  injection H0 as <-. reflexivity.
Qed.

Lemma bind_Raise {A B : Type} (c : result A) (e : exn) (k : A -> result B) :
  c = Raise e -> bind c k = Raise e.
Proof. intro E. rewrite E. reflexivity. Qed.

(** With a valid profile and an EER that is not positive, the fourth check
    is the one that fails. *)
Lemma validate_inputs_nonpositive_eer age gender activity_level eer :
  valid_eer_input age gender activity_level -> eer <= 0 ->
  validate_inputs age gender activity_level eer
    = Raise (ValueError "EER must be a positive value").
Proof.
  intros (A & G & L) E. unfold validate_inputs.
  apply Qle_bool_true in A. apply str_in_In in G. apply str_in_In in L.
  apply Qlt_bool_false in E. rewrite A, G, L, E. reflexivity.
Qed.

Lemma guideline_nonpositive_eer age height weight gender activity_level eer :
  valid_eer_input age gender activity_level ->
  calc_EER age height weight gender activity_level = Return eer ->
  eer <= 0 ->
  generate_nutritional_guideline age height weight gender activity_level
    = Raise (ValueError "EER must be a positive value").
Proof.
  intros V E N. unfold generate_nutritional_guideline.
  rewrite (bind_Return _ _ _ E); cbv beta.
  apply bind_Raise.
  apply (generator_validates N_carbohydrates).
  apply validate_inputs_nonpositive_eer; assumption.
Qed.

Lemma guideline_invalid age height weight gender activity_level e :
  calc_EER age height weight gender activity_level = Raise e ->
  generate_nutritional_guideline age height weight gender activity_level = Raise e.
Proof. intro E. unfold generate_nutritional_guideline. apply bind_Raise, E. Qed.

(** C3, as stated, fails: a profile that passes every check of calc_EER
    (age 25, height 30, weight 5, male, very active) has a negative EER, and
    the aggregator raises instead of returning the assembly. *)
Lemma guideline_raises_on_valid_profile :
  valid_eer_input 25 "M" "very_active" /\ 0 < 30 /\ 0 < 5 /\
  (exists eer, calc_EER 25 30 5 "M" "very_active" = Return eer /\ eer == -224.78) /\
  generate_nutritional_guideline 25 30 5 "M" "very_active"
    = Raise (ValueError "EER must be a positive value").
Proof.
  split.
  { split; [apply Qle_bool_iff; reflexivity|].
    split; [left; reflexivity | right; right; right; left; reflexivity]. }
  split; [reflexivity|]. split; [reflexivity|].
  split; [eexists; split; [vm_compute; reflexivity | reflexivity]|].
  vm_compute. reflexivity.
Qed.

(** C3, amended: the aggregator evaluates calc_EER once, first, and uses
    height and weight nowhere else: it is calc_EER followed by a
    continuation that is the same for every height and weight.  When
    calc_EER raises, the aggregator raises the same error.  When calc_EER
    returns an EER that is positive and finite (at most the largest binary64
    value), the aggregator returns the assembly in which each nutrient's
    entry is what the standalone generator returns for (age, gender,
    activity_level, that EER).  When the EER is zero or negative it raises
    the generators' error and returns nothing.  On a profile calc_EER
    rejects it raises calc_EER's error. *)
Theorem guideline_composition
  (age height weight : Q) (gender activity_level : string) :
  (exists k, forall h w,
     generate_nutritional_guideline age h w gender activity_level
       = bind (calc_EER age h w gender activity_level) k) /\
  (forall e,
     calc_EER age height weight gender activity_level = Raise e ->
     generate_nutritional_guideline age height weight gender activity_level
       = Raise e) /\
  (forall eer,
     calc_EER age height weight gender activity_level = Return eer ->
     (0 < eer <= float_max ->
      exists g,
        generate_nutritional_guideline age height weight gender activity_level
          = Return g /\
        forall n, exists o,
          generator n age gender activity_level eer = Return o /\
          entry g (section_of n) (key_of n) = Some o) /\
     (eer <= 0 ->
      generate_nutritional_guideline age height weight gender activity_level
        = Raise (ValueError "EER must be a positive value"))) /\
  (invalid_eer_input age gender activity_level ->
   exists msg,
     calc_EER age height weight gender activity_level = Raise (ValueError msg) /\
     generate_nutritional_guideline age height weight gender activity_level
       = Raise (ValueError msg)).
Proof.
  split; [|split; [|split]].
  - eexists. intros h w. unfold generate_nutritional_guideline. reflexivity.
  - intros e E. apply guideline_invalid, E.
  - intros eer E.
    assert (V : valid_eer_input age gender activity_level).
    { destruct (valid_or_invalid_eer_input age gender activity_level)
        as [V|I]; [exact V|].
      destruct (calc_EER_invalid age height weight _ _ I) as [m R].
      congruence. }
    split.
    + intros [P _].
      assert (VO : valid_outline_input age gender activity_level eer).
      { destruct V as (A & G & L). repeat split; assumption. }
      assert (F : forall n, returns (generator n age gender activity_level eer)).
      { intro n. apply generator_returns, VO. }
      eexists. split; [apply (guideline_assembled _ _ _ _ _ _ E F)|].
      intro n. exists (returned (generator n age gender activity_level eer)).
      split; [apply returned_Return, F|].
      apply (entry_assemble
               (fun n => returned (generator n age gender activity_level eer))).
    + intro N. exact (guideline_nonpositive_eer _ _ _ _ _ _ V E N).
  - intro I. destruct (calc_EER_invalid age height weight _ _ I) as [msg E].
    exists msg. split; [exact E | apply guideline_invalid, E].
Qed.

Lemma calc_EER_example :
  calc_EER 25 170 70 "M" "active"
    = Return (1004.82 - (10.83 * 25) + (6.52 * 170) + (15.91 * 70)).
Proof. reflexivity. Qed.

Lemma guideline_composition_witness :
  exists g,
    generate_nutritional_guideline 25 170 70 "M" "active" = Return g /\
    forall n, exists o,
      generator n 25 "M" "active"
        (1004.82 - (10.83 * 25) + (6.52 * 170) + (15.91 * 70)) = Return o /\
      entry g (section_of n) (key_of n) = Some o.
Proof.
  apply (proj1 (proj1 (proj2 (proj2 (guideline_composition 25 170 70 "M" "active")))
                  _ calc_EER_example)).
  split; [reflexivity | apply Qle_bool_iff; vm_compute; reflexivity].
Defined.

(** C4: whenever generate_nutritional_guideline returns, the result has
    exactly the three top-level keys macronutrients, vitamins and minerals;
    macronutrients has exactly carbohydrates, fiber, protein and fat;
    vitamins has exactly its 14 keys and minerals exactly its 15 keys. *)
Theorem guideline_keys
  (age height weight : Q) (gender activity_level : string) (g : guideline) :
  generate_nutritional_guideline age height weight gender activity_level
    = Return g ->
  keys g = ["macronutrients"; "vitamins"; "minerals"] /\
  option_map keys (lookup g "macronutrients") = Some macronutrient_keys /\
  option_map keys (lookup g "vitamins") = Some vitamin_keys /\
  option_map keys (lookup g "minerals") = Some mineral_keys /\
  length macronutrient_keys = 4%nat /\
  length vitamin_keys = 14%nat /\
  length mineral_keys = 15%nat /\
  NoDup (macronutrient_keys ++ vitamin_keys ++ mineral_keys)%list.
Proof.
  intro H. destruct (guideline_returns_inv _ _ _ _ _ _ H) as (eer & _ & _ & ->).
  generalize (fun n => returned (generator n age gender activity_level eer)).
  intro f. repeat (split; [reflexivity|]).
  repeat (constructor; [simpl; intuition discriminate|]). constructor.
Qed.

Lemma guideline_keys_witness :
  exists g,
    generate_nutritional_guideline 25 170 70 "M" "active" = Return g /\
    keys g = ["macronutrients"; "vitamins"; "minerals"] /\
    option_map keys (lookup g "macronutrients") = Some macronutrient_keys /\
    option_map keys (lookup g "vitamins") = Some vitamin_keys /\
    option_map keys (lookup g "minerals") = Some mineral_keys.
Proof.
  assert (E : exists g,
             generate_nutritional_guideline 25 170 70 "M" "active" = Return g)
    by (eexists; vm_compute; reflexivity).
  destruct E as [g E]. exists g. split; [exact E|].
  destruct (guideline_keys 25 170 70 "M" "active" g E) as (K & M & V & N & _).
  auto.
Defined.

(** ** Ages between 18 and 19 *)

Lemma validate_inputs_age age age' gender activity_level eer :
  14 <= age -> 14 <= age' ->
  validate_inputs age gender activity_level eer
    = validate_inputs age' gender activity_level eer.
Proof.
  intros A A'. unfold validate_inputs.
  rewrite (proj2 (Qle_bool_true _ _) A), (proj2 (Qle_bool_true _ _) A').
  reflexivity.
Qed.

Section Between18And19.
Variable age : Q.
Hypothesis between : 18 < age < 19.

Lemma age_ge_14 : (14 <=? age) = true.
Proof. apply Qle_bool_true. lra. Qed.

Lemma age_not_le_18 : (age <=? 18) = false.
Proof. apply Qle_bool_false. lra. Qed.



Lemma age_le_70 : (age <=? 70) = true.
Proof. apply Qle_bool_true. lra. Qed.





End Between18And19.





(** ** Further observations *)

(** Scenario 3 of the specification:
    generate_vitamin_d_outline(80, 'F', 'inactive', 1800) takes the
    over-70 base of 20 with lower limit 10, multiplies by 1.0 and by the
    clamped EER ratio 0.95, and returns 19, 10, 100 in mcg. *)
Theorem vitamin_d_scenario :
  py_min 1.1 (py_max 0.95 (1800 / reference_eer "F")) = 0.95 /\
  generate_vitamin_d_outline 80 "F" "inactive" 1800
    = Return {| recommended_intake := 19; lower_limit := 10;
                upper_limit := 100; units := "mcg" |}.
Proof. split; vm_compute; reflexivity. Qed.

(** X2: the three-band generators (vitamin B6, calcium, chloride, chromium,
    iron, magnesium) give an age strictly between 18 and 19 the outline of
    their last band: what they return for age 51. *)
Theorem three_band_gap (n : nutrient) (age : Q)
  (gender activity_level : string) (eer : Q) :
  18 < age < 19 ->
  In n three_band_nutrients ->
  generator n age gender activity_level eer
    = generator n 51 gender activity_level eer.
Proof.
  intros B I.
  assert (A : 14 <= age) by lra.
  assert (A' : 14 <= 51) by (apply Qle_bool_iff; reflexivity).
  pose proof (validate_inputs_age age 51 gender activity_level eer A A') as V.
  assert (T1 : (19 <=? age) = false) by (apply Qle_bool_false; lra).
  simpl in I.
  destruct I as [<-|[<-|[<-|[<-|[<-|[<-|[]]]]]]];
    cbv beta iota delta [generator];
    match goal with |- ?g _ _ _ _ = _ => unfold g end;
    rewrite V, ?(age_ge_14 age B), ?(age_not_le_18 age B), ?T1,
      ?(age_le_70 age B);
    change (14 <=? 51) with true; change (51 <=? 18) with false;
    change (51 <=? 50) with false; change (51 <=? 30) with false;
    change (51 <=? 70) with true;
    cbn [andb]; reflexivity.
Qed.

Lemma three_band_gap_witness :
  generator N_calcium 18.5 "F" "active" 2000
    = generator N_calcium 51 "F" "active" 2000.
Proof.
  apply three_band_gap; [split; reflexivity | simpl; tauto].
Defined.

(** X3: the sodium generator gives an age strictly between 50 and 51 the
    outline of its last band (71 and over): what it returns for age 71. *)
Theorem sodium_gap (age : Q) (gender activity_level : string) (eer : Q) :
  50 < age < 51 ->
  generate_sodium_outline age gender activity_level eer
    = generate_sodium_outline 71 gender activity_level eer.
Proof.
  intro B.
  assert (A : 14 <= age) by lra.
  assert (A' : 14 <= 71) by (apply Qle_bool_iff; reflexivity).
  unfold generate_sodium_outline.
  rewrite (validate_inputs_age age 71 gender activity_level eer A A').
  rewrite (proj2 (Qle_bool_true 14 age) A).
  rewrite (proj2 (Qle_bool_false age 50)) by lra.
  rewrite (proj2 (Qle_bool_false 51 age)) by lra.
  change (14 <=? 71) with true. change (71 <=? 50) with false.
  change (71 <=? 70) with false.
  cbn [andb]. reflexivity.
Qed.

Lemma sodium_gap_witness :
  generate_sodium_outline 50.5 "M" "inactive" 2500
    = generate_sodium_outline 71 "M" "inactive" 2500.
Proof.
  apply sodium_gap. split; reflexivity.
Defined.

(** ** Age enters only through the band tests *)

Lemma generator_age_tests (n : nutrient) (a b : Q)
  (gender activity_level : string) (eer : Q) :
  age_tests a = age_tests b ->
  generator n a gender activity_level eer
    = generator n b gender activity_level eer.
Proof.
  intro H. unfold age_tests in H.
  injection H as T1 T2 T3 T4 T5 T6 T7 T8.
  destruct n; cbv beta iota delta [generator];
    match goal with |- ?g _ _ _ _ = _ => unfold g end;
    unfold validate_inputs;
    rewrite ?T1, ?T2, ?T3, ?T4, ?T5, ?T6, ?T7, ?T8; reflexivity.
Qed.

Ltac decide_age_test :=
  first [ apply Qle_bool_true; lra | apply Qle_bool_false; lra
        | apply Qlt_bool_true; lra | apply Qlt_bool_false; lra ].

Ltac age_tests_are l :=
  match goal with
  | |- age_tests ?a = age_tests ?b =>
      transitivity l; [| symmetry];
      unfold age_tests; repeat (f_equal; try decide_age_test)
  end.

(** X1: an outline depends on age only through the band: two ages in the
    same band -- 14 to 18, 19 to 30, over 30 to 50, 51 to 70, over 70 -- give
    the same result, outline or error, for every generator. *)
Theorem generator_constant_on_band (n : nutrient) (a b : Q)
  (gender activity_level : string) (eer : Q) :
  same_age_band a b ->
  generator n a gender activity_level eer
    = generator n b gender activity_level eer.
Proof.
  intro H. apply generator_age_tests.
  destruct H as [[A B]|[[A B]|[[A B]|[[A B]|[A B]]]]].
  - age_tests_are [true; true; false; true; true; false; false; true].
  - age_tests_are [true; false; true; true; true; false; false; true].
  - age_tests_are [true; false; true; false; true; false; false; true].
  - age_tests_are [true; false; true; false; false; true; true; true].
  - age_tests_are [true; false; true; false; false; true; true; false].
Qed.

Lemma generator_constant_on_band_witness :
  generator N_magnesium 31 "F" "active" 2000
    = generator N_magnesium 50 "F" "active" 2000.
Proof.
  apply generator_constant_on_band.
  right; right; left. repeat split; try reflexivity;
    apply Qle_bool_iff; reflexivity.
Defined.

(** ** The EER adjustment saturates *)

Lemma clamp_high (lo hi x : Q) :
  lo < hi -> hi <= x -> py_min hi (py_max lo x) = hi.
Proof.
  intros W H. unfold py_max.
  rewrite (proj2 (Qlt_bool_true lo x)) by lra.
  unfold py_min. rewrite (proj2 (Qlt_bool_false x hi)) by lra. reflexivity.
Qed.

Lemma clamp_low (lo hi x : Q) :
  lo < hi -> x <= lo -> py_min hi (py_max lo x) = lo.
Proof.
  intros W H. unfold py_max.
  rewrite (proj2 (Qlt_bool_false lo x)) by lra.
  unfold py_min. rewrite (proj2 (Qlt_bool_true lo hi)) by lra. reflexivity.
Qed.

Lemma reference_eer_cases (gender : string) :
  reference_eer gender = 2500 \/ reference_eer gender = 2000.
Proof. unfold reference_eer. destruct (String.eqb gender "M"); auto. Qed.

Lemma ratio_ge (k eer : Q) (gender : string) :
  k * reference_eer gender <= eer -> k <= eer / reference_eer gender.
Proof.
  intro H. destruct (reference_eer_cases gender) as [E|E]; rewrite E in *;
    apply Qle_shift_div_l; [reflexivity | exact H | reflexivity | exact H].
Qed.

Lemma ratio_le (k eer : Q) (gender : string) :
  eer <= k * reference_eer gender -> eer / reference_eer gender <= k.
Proof.
  intro H. destruct (reference_eer_cases gender) as [E|E]; rewrite E in *;
    apply Qle_shift_div_r; [reflexivity | exact H | reflexivity | exact H].
Qed.

Lemma validate_inputs_eer age gender activity_level e1 e2 :
  0 < e1 -> 0 < e2 ->
  validate_inputs age gender activity_level e1
    = validate_inputs age gender activity_level e2.
Proof.
  intros P1 P2. unfold validate_inputs.
  rewrite (proj2 (Qlt_bool_true 0 e1) P1), (proj2 (Qlt_bool_true 0 e2) P2).
  reflexivity.
Qed.

Ltac saturate lem e1 e2 H1 H2 :=
  repeat match goal with
  | |- context [py_min ?hi (py_max ?lo (e1 / ?r))] =>
      rewrite (lem lo hi (e1 / r));
      [| reflexivity | eapply Qle_trans; [| exact H1]; closed_Qle]
  | |- context [py_min ?hi (py_max ?lo (e2 / ?r))] =>
      rewrite (lem lo hi (e2 / r));
      [| reflexivity | eapply Qle_trans; [| exact H2]; closed_Qle]
  end.

Ltac saturate_low e1 e2 H1 H2 :=
  repeat match goal with
  | |- context [py_min ?hi (py_max ?lo (e1 / ?r))] =>
      rewrite (clamp_low lo hi (e1 / r));
      [| reflexivity | eapply Qle_trans; [exact H1 | closed_Qle]]
  | |- context [py_min ?hi (py_max ?lo (e2 / ?r))] =>
      rewrite (clamp_low lo hi (e2 / r));
      [| reflexivity | eapply Qle_trans; [exact H2 | closed_Qle]]
  end.

(** X4: the EER adjustment saturates.  For every generator that applies it
    (all but carbohydrates, fat and fiber), two EERs that are both at least
    120% of the reference EER (2500 for 'M', otherwise 2000), or both positive
    and at most 85% of it, give the same result. *)
Theorem eer_adjustment_saturates (n : nutrient) (age : Q)
  (gender activity_level : string) (e1 e2 : Q) :
  eer_adjusted n = true ->
  (1.2 * reference_eer gender <= e1 /\ 1.2 * reference_eer gender <= e2) \/
  (0 < e1 <= 0.85 * reference_eer gender /\
   0 < e2 <= 0.85 * reference_eer gender) ->
  generator n age gender activity_level e1
    = generator n age gender activity_level e2.
Proof.
  intros A H.
  assert (P : 0 < e1 /\ 0 < e2).
  { destruct (reference_eer_cases gender) as [E|E]; rewrite E in H;
      destruct H as [[H1 H2]|[[P1 _] [P2 _]]]; split; lra. }
  destruct P as [P1 P2].
  pose proof (validate_inputs_eer age gender activity_level e1 e2 P1 P2) as V.
  destruct H as [[H1 H2]|[[_ H1] [_ H2]]].
  - apply ratio_ge in H1. apply ratio_ge in H2.
    destruct n; try discriminate A; cbv beta iota delta [generator];
      match goal with |- ?g _ _ _ _ = _ => unfold g end;
      rewrite V; saturate clamp_high e1 e2 H1 H2; reflexivity.
  - apply ratio_le in H1. apply ratio_le in H2.
    destruct n; try discriminate A; cbv beta iota delta [generator];
      match goal with |- ?g _ _ _ _ = _ => unfold g end;
      rewrite V; saturate_low e1 e2 H1 H2; reflexivity.
Qed.

Lemma eer_adjustment_saturates_witness :
  generator N_protein 25 "M" "active" 3000
    = generator N_protein 25 "M" "active" 4000.
Proof.
  apply eer_adjustment_saturates; [reflexivity|].
  left. split; apply Qle_bool_iff; reflexivity.
Defined.

(** ** The recommended intake grows with activity and energy *)

Lemma py_max_mono (a b a' b' : Q) :
  a <= a' -> b <= b' -> py_max a b <= py_max a' b'.
Proof.
  intros A B.
  destruct (py_max_spec a' b') as [L R].
  destruct (py_max_cases a b) as [E|E]; rewrite E; lra.
Qed.

Lemma py_min_mono (a b b' : Q) : b <= b' -> py_min a b <= py_min a b'.
Proof.
  intro B. unfold py_min.
  destruct (b <? a) eqn:E1; destruct (b' <? a) eqn:E2;
    try apply Qlt_bool_true in E1; try apply Qlt_bool_false in E1;
    try apply Qlt_bool_true in E2; try apply Qlt_bool_false in E2; lra.
Qed.

Lemma clamp_mono (lo hi x y : Q) :
  x <= y -> py_min hi (py_max lo x) <= py_min hi (py_max lo y).
Proof.
  intro H. apply py_min_mono, py_max_mono; [apply Qle_refl | exact H].
Qed.

Lemma Qdiv_le_compat (x y d : Q) : 0 < d -> x <= y -> x / d <= y / d.
Proof.
  intros D H. unfold Qdiv. apply Qmult_le_compat_r; [exact H|].
  apply Qlt_le_weak, Qinv_lt_0_compat, D.
Qed.

Lemma adjusted_mono (b m1 m2 lo hi x y : Q) :
  0 <= b -> 0 <= m1 -> m1 <= m2 -> 0 <= lo -> lo <= hi -> x <= y ->
  b * m1 * py_min hi (py_max lo x) <= b * m2 * py_min hi (py_max lo y).
Proof.
  intros B M1 M2 L W H.
  destruct (clamp_bounds lo hi x W) as [Lx _].
  apply Qmult_le_compat_nonneg.
  - split; [apply Qmult_le_0_compat; assumption|].
    apply Qmult_le_compat_l_nonneg; assumption.
  - split; [lra | apply clamp_mono, H].
Qed.

(** What a nondecreasing table gives for two valid levels in order. *)
Lemma nondecreasing_table_spec (t : list (string * Q)) (a1 a2 : string) :
  nondecreasing_table t = true ->
  valid_activity_level a1 -> valid_activity_level a2 ->
  (activity_rank a1 <= activity_rank a2)%nat ->
  exists m1 m2,
    dict_get t a1 = Return m1 /\ dict_get t a2 = Return m2 /\
    0 <= m1 /\ m1 <= m2.
Proof.
  intros T L1 L2 R.
  assert (I : In (a1, a2) ordered_activity_pairs).
  { unfold valid_activity_level, activity_levels in L1, L2. simpl in L1, L2.
    destruct L1 as [L1|[L1|[L1|[L1|[]]]]]; destruct L2 as [L2|[L2|[L2|[L2|[]]]]];
      subst; vm_compute in R; try lia; simpl; tauto. }
  unfold nondecreasing_table in T. rewrite forallb_forall in T.
  specialize (T _ I). simpl in T.
  destruct (dict_get t a1) as [m1| |]; try discriminate T.
  destruct (dict_get t a2) as [m2| |]; try discriminate T.
  apply andb_true_iff in T. destruct T as [T1 T2].
  exists m1, m2. repeat split; try reflexivity; apply Qle_bool_iff; assumption.
Qed.

Ltac destruct_gender H :=
  let A := fresh "Hage" in
  let G := fresh "Hgender" in
  let L := fresh "Hactivity" in
  let E := fresh "Heer" in
  destruct H as (A & G & L & E);
  unfold valid_gender, genders in G; simpl in G;
  destruct G as [G|[G|[]]]; symmetry in G; subst.

Ltac intake_mono_goal M0 M E :=
  lazymatch goal with
  | |- round (?b * ?m1 * py_min ?hi (py_max ?lo (_ / ?r)))
       <= round (?b * ?m2 * py_min ?hi (py_max ?lo (_ / ?r))) =>
      apply round_mono, adjusted_mono;
      [closed_Qle | exact M0 | exact M | closed_Qle | closed_Qle
      | apply Qdiv_le_compat; [reflexivity | exact E]]
  | |- round1 (?b * ?m1 * py_min ?hi (py_max ?lo (_ / ?r)))
       <= round1 (?b * ?m2 * py_min ?hi (py_max ?lo (_ / ?r))) =>
      apply round1_mono, adjusted_mono;
      [closed_Qle | exact M0 | exact M | closed_Qle | closed_Qle
      | apply Qdiv_le_compat; [reflexivity | exact E]]
  | |- round (py_max (?b * ?m1) _) <= round (py_max (?b * ?m2) _) =>
      apply round_mono, py_max_mono;
      [apply Qmult_le_compat_l_nonneg; [closed_Qle | exact M]
      | apply Qmult_le_compat_r;
        [apply Qdiv_le_compat; [reflexivity | exact E] | closed_Qle]]
  end.

(** The cases of gender and age band, the two multipliers kept symbolic. *)
Ltac intake_monotone V1 L2 R E age a1 a2 :=
  rewrite (validate_inputs_valid _ _ _ _ V1);
  match goal with
  | |- context [validate_inputs ?a ?g ?l ?e] =>
      rewrite (validate_inputs_valid a g l e)
        by (destruct V1 as (? & ? & ? & ?); repeat split; assumption)
  end;
  match goal with
  | |- context [dict_get ?t a1] =>
      let m1 := fresh "m1" in
      let m2 := fresh "m2" in
      let D1 := fresh "D1" in
      let D2 := fresh "D2" in
      let M0 := fresh "M0" in
      let M := fresh "M" in
      destruct (nondecreasing_table_spec t a1 a2 eq_refl
                  (proj1 (proj2 (proj2 V1))) L2 R)
        as (m1 & m2 & D1 & D2 & M0 & M);
      rewrite D1, D2;
      destruct_gender V1;
      match goal with A : valid_age age |- _ =>
        rewrite ?(proj2 (Qle_bool_true 14 age) A) end;
      split_age age; outline_cbn;
      (eexists; eexists; split; [reflexivity | split; [reflexivity|]]);
      outline_cbn; rewrite ?round_round;
      intake_mono_goal M0 M E
  end.

Section Monotone.
Variables (age : Q) (gender a1 a2 : string) (e1 e2 : Q).
Hypothesis valid1 : valid_outline_input age gender a1 e1.
Hypothesis valid_a2 : valid_activity_level a2.
Hypothesis energy : e1 <= e2.

Lemma energy_positive : 0 < e2.
Proof. destruct valid1 as (_ & _ & _ & P). lra. Qed.

Lemma carbohydrates_intake_monotone :
  exists o1 o2,
    generate_carbohydrates_outline age gender a1 e1 = Return o1 /\
    generate_carbohydrates_outline age gender a2 e2 = Return o2 /\
    recommended_intake o1 <= recommended_intake o2.
Proof.
  pose proof energy_positive as P2.
  unfold generate_carbohydrates_outline.
  rewrite (validate_inputs_valid _ _ _ _ valid1).
  rewrite (validate_inputs_valid age gender a2 e2)
    by (destruct valid1 as (? & ? & ? & ?); repeat split; assumption).
  eexists; eexists; split; [reflexivity | split; [reflexivity|]].
  apply round_mono, Qdiv_le_compat; [reflexivity|].
  apply Qmult_le_compat_l_nonneg; [closed_Qle | exact energy].
Qed.

Lemma fat_intake_monotone :
  exists o1 o2,
    generate_fat_outline age gender a1 e1 = Return o1 /\
    generate_fat_outline age gender a2 e2 = Return o2 /\
    recommended_intake o1 <= recommended_intake o2.
Proof.
  pose proof energy_positive as P2.
  unfold generate_fat_outline.
  rewrite (validate_inputs_valid _ _ _ _ valid1).
  rewrite (validate_inputs_valid age gender a2 e2)
    by (destruct valid1 as (? & ? & ? & ?); repeat split; assumption).
  eexists; eexists; split; [reflexivity | split; [reflexivity|]].
  apply round_mono, Qdiv_le_compat; [reflexivity|].
  apply Qmult_le_compat_l_nonneg; [closed_Qle | exact energy].
Qed.

Hypothesis rank : (activity_rank a1 <= activity_rank a2)%nat.

Lemma fiber_intake_monotone :
  exists o1 o2,
    generate_fiber_outline age gender a1 e1 = Return o1 /\
    generate_fiber_outline age gender a2 e2 = Return o2 /\
    recommended_intake o1 <= recommended_intake o2.
Proof.
  pose proof energy_positive as P2. unfold generate_fiber_outline.
  intake_monotone valid1 valid_a2 rank energy age a1 a2.
Qed.

Lemma protein_intake_monotone :
  exists o1 o2,
    generate_protein_outline age gender a1 e1 = Return o1 /\
    generate_protein_outline age gender a2 e2 = Return o2 /\
    recommended_intake o1 <= recommended_intake o2.
Proof.
  pose proof energy_positive as P2. unfold generate_protein_outline.
  intake_monotone valid1 valid_a2 rank energy age a1 a2.
Qed.

Lemma vitamin_a_intake_monotone :
  exists o1 o2,
    generate_vitamin_a_outline age gender a1 e1 = Return o1 /\
    generate_vitamin_a_outline age gender a2 e2 = Return o2 /\
    recommended_intake o1 <= recommended_intake o2.
Proof.
  pose proof energy_positive as P2. unfold generate_vitamin_a_outline.
  intake_monotone valid1 valid_a2 rank energy age a1 a2.
Qed.

Lemma vitamin_c_intake_monotone :
  exists o1 o2,
    generate_vitamin_c_outline age gender a1 e1 = Return o1 /\
    generate_vitamin_c_outline age gender a2 e2 = Return o2 /\
    recommended_intake o1 <= recommended_intake o2.
Proof.
  pose proof energy_positive as P2. unfold generate_vitamin_c_outline.
  intake_monotone valid1 valid_a2 rank energy age a1 a2.
Qed.

Lemma vitamin_d_intake_monotone :
  exists o1 o2,
    generate_vitamin_d_outline age gender a1 e1 = Return o1 /\
    generate_vitamin_d_outline age gender a2 e2 = Return o2 /\
    recommended_intake o1 <= recommended_intake o2.
Proof.
  pose proof energy_positive as P2. unfold generate_vitamin_d_outline.
  intake_monotone valid1 valid_a2 rank energy age a1 a2.
Qed.

Lemma vitamin_b6_intake_monotone :
  exists o1 o2,
    generate_vitamin_b6_outline age gender a1 e1 = Return o1 /\
    generate_vitamin_b6_outline age gender a2 e2 = Return o2 /\
    recommended_intake o1 <= recommended_intake o2.
Proof.
  pose proof energy_positive as P2. unfold generate_vitamin_b6_outline.
  intake_monotone valid1 valid_a2 rank energy age a1 a2.
Qed.

Lemma vitamin_e_intake_monotone :
  exists o1 o2,
    generate_vitamin_e_outline age gender a1 e1 = Return o1 /\
    generate_vitamin_e_outline age gender a2 e2 = Return o2 /\
    recommended_intake o1 <= recommended_intake o2.
Proof.
  pose proof energy_positive as P2. unfold generate_vitamin_e_outline.
  intake_monotone valid1 valid_a2 rank energy age a1 a2.
Qed.

Lemma vitamin_k_intake_monotone :
  exists o1 o2,
    generate_vitamin_k_outline age gender a1 e1 = Return o1 /\
    generate_vitamin_k_outline age gender a2 e2 = Return o2 /\
    recommended_intake o1 <= recommended_intake o2.
Proof.
  pose proof energy_positive as P2. unfold generate_vitamin_k_outline.
  intake_monotone valid1 valid_a2 rank energy age a1 a2.
Qed.

Lemma thiamin_intake_monotone :
  exists o1 o2,
    generate_thiamin_outline age gender a1 e1 = Return o1 /\
    generate_thiamin_outline age gender a2 e2 = Return o2 /\
    recommended_intake o1 <= recommended_intake o2.
Proof.
  pose proof energy_positive as P2. unfold generate_thiamin_outline.
  intake_monotone valid1 valid_a2 rank energy age a1 a2.
Qed.

Lemma vitamin_b12_intake_monotone :
  exists o1 o2,
    generate_vitamin_b12_outline age gender a1 e1 = Return o1 /\
    generate_vitamin_b12_outline age gender a2 e2 = Return o2 /\
    recommended_intake o1 <= recommended_intake o2.
Proof.
  pose proof energy_positive as P2. unfold generate_vitamin_b12_outline.
  intake_monotone valid1 valid_a2 rank energy age a1 a2.
Qed.

Lemma riboflavin_intake_monotone :
  exists o1 o2,
    generate_riboflavin_outline age gender a1 e1 = Return o1 /\
    generate_riboflavin_outline age gender a2 e2 = Return o2 /\
    recommended_intake o1 <= recommended_intake o2.
Proof.
  pose proof energy_positive as P2. unfold generate_riboflavin_outline.
  intake_monotone valid1 valid_a2 rank energy age a1 a2.
Qed.

Lemma folate_intake_monotone :
  exists o1 o2,
    generate_folate_outline age gender a1 e1 = Return o1 /\
    generate_folate_outline age gender a2 e2 = Return o2 /\
    recommended_intake o1 <= recommended_intake o2.
Proof.
  pose proof energy_positive as P2. unfold generate_folate_outline.
  intake_monotone valid1 valid_a2 rank energy age a1 a2.
Qed.

Lemma niacin_intake_monotone :
  exists o1 o2,
    generate_niacin_outline age gender a1 e1 = Return o1 /\
    generate_niacin_outline age gender a2 e2 = Return o2 /\
    recommended_intake o1 <= recommended_intake o2.
Proof.
  pose proof energy_positive as P2. unfold generate_niacin_outline.
  intake_monotone valid1 valid_a2 rank energy age a1 a2.
Qed.

Lemma choline_intake_monotone :
  exists o1 o2,
    generate_choline_outline age gender a1 e1 = Return o1 /\
    generate_choline_outline age gender a2 e2 = Return o2 /\
    recommended_intake o1 <= recommended_intake o2.
Proof.
  pose proof energy_positive as P2. unfold generate_choline_outline.
  intake_monotone valid1 valid_a2 rank energy age a1 a2.
Qed.

Lemma pantothenic_acid_intake_monotone :
  exists o1 o2,
    generate_pantothenic_acid_outline age gender a1 e1 = Return o1 /\
    generate_pantothenic_acid_outline age gender a2 e2 = Return o2 /\
    recommended_intake o1 <= recommended_intake o2.
Proof.
  pose proof energy_positive as P2. unfold generate_pantothenic_acid_outline.
  intake_monotone valid1 valid_a2 rank energy age a1 a2.
Qed.

Lemma biotin_intake_monotone :
  exists o1 o2,
    generate_biotin_outline age gender a1 e1 = Return o1 /\
    generate_biotin_outline age gender a2 e2 = Return o2 /\
    recommended_intake o1 <= recommended_intake o2.
Proof.
  pose proof energy_positive as P2. unfold generate_biotin_outline.
  intake_monotone valid1 valid_a2 rank energy age a1 a2.
Qed.

Lemma calcium_intake_monotone :
  exists o1 o2,
    generate_calcium_outline age gender a1 e1 = Return o1 /\
    generate_calcium_outline age gender a2 e2 = Return o2 /\
    recommended_intake o1 <= recommended_intake o2.
Proof.
  pose proof energy_positive as P2. unfold generate_calcium_outline.
  intake_monotone valid1 valid_a2 rank energy age a1 a2.
Qed.

Lemma chloride_intake_monotone :
  exists o1 o2,
    generate_chloride_outline age gender a1 e1 = Return o1 /\
    generate_chloride_outline age gender a2 e2 = Return o2 /\
    recommended_intake o1 <= recommended_intake o2.
Proof.
  pose proof energy_positive as P2. unfold generate_chloride_outline.
  intake_monotone valid1 valid_a2 rank energy age a1 a2.
Qed.

Lemma chromium_intake_monotone :
  exists o1 o2,
    generate_chromium_outline age gender a1 e1 = Return o1 /\
    generate_chromium_outline age gender a2 e2 = Return o2 /\
    recommended_intake o1 <= recommended_intake o2.
Proof.
  pose proof energy_positive as P2. unfold generate_chromium_outline.
  intake_monotone valid1 valid_a2 rank energy age a1 a2.
Qed.

Lemma copper_intake_monotone :
  exists o1 o2,
    generate_copper_outline age gender a1 e1 = Return o1 /\
    generate_copper_outline age gender a2 e2 = Return o2 /\
    recommended_intake o1 <= recommended_intake o2.
Proof.
  pose proof energy_positive as P2. unfold generate_copper_outline.
  intake_monotone valid1 valid_a2 rank energy age a1 a2.
Qed.

Lemma fluoride_intake_monotone :
  exists o1 o2,
    generate_fluoride_outline age gender a1 e1 = Return o1 /\
    generate_fluoride_outline age gender a2 e2 = Return o2 /\
    recommended_intake o1 <= recommended_intake o2.
Proof.
  pose proof energy_positive as P2. unfold generate_fluoride_outline.
  intake_monotone valid1 valid_a2 rank energy age a1 a2.
Qed.

Lemma iodine_intake_monotone :
  exists o1 o2,
    generate_iodine_outline age gender a1 e1 = Return o1 /\
    generate_iodine_outline age gender a2 e2 = Return o2 /\
    recommended_intake o1 <= recommended_intake o2.
Proof.
  pose proof energy_positive as P2. unfold generate_iodine_outline.
  intake_monotone valid1 valid_a2 rank energy age a1 a2.
Qed.

Lemma iron_intake_monotone :
  exists o1 o2,
    generate_iron_outline age gender a1 e1 = Return o1 /\
    generate_iron_outline age gender a2 e2 = Return o2 /\
    recommended_intake o1 <= recommended_intake o2.
Proof.
  pose proof energy_positive as P2. unfold generate_iron_outline.
  intake_monotone valid1 valid_a2 rank energy age a1 a2.
Qed.

Lemma magnesium_intake_monotone :
  exists o1 o2,
    generate_magnesium_outline age gender a1 e1 = Return o1 /\
    generate_magnesium_outline age gender a2 e2 = Return o2 /\
    recommended_intake o1 <= recommended_intake o2.
Proof.
  pose proof energy_positive as P2. unfold generate_magnesium_outline.
  intake_monotone valid1 valid_a2 rank energy age a1 a2.
Qed.

Lemma manganese_intake_monotone :
  exists o1 o2,
    generate_manganese_outline age gender a1 e1 = Return o1 /\
    generate_manganese_outline age gender a2 e2 = Return o2 /\
    recommended_intake o1 <= recommended_intake o2.
Proof.
  pose proof energy_positive as P2. unfold generate_manganese_outline.
  intake_monotone valid1 valid_a2 rank energy age a1 a2.
Qed.

Lemma molybdenum_intake_monotone :
  exists o1 o2,
    generate_molybdenum_outline age gender a1 e1 = Return o1 /\
    generate_molybdenum_outline age gender a2 e2 = Return o2 /\
    recommended_intake o1 <= recommended_intake o2.
Proof.
  pose proof energy_positive as P2. unfold generate_molybdenum_outline.
  intake_monotone valid1 valid_a2 rank energy age a1 a2.
Qed.

Lemma phosphorus_intake_monotone :
  exists o1 o2,
    generate_phosphorus_outline age gender a1 e1 = Return o1 /\
    generate_phosphorus_outline age gender a2 e2 = Return o2 /\
    recommended_intake o1 <= recommended_intake o2.
Proof.
  pose proof energy_positive as P2. unfold generate_phosphorus_outline.
  intake_monotone valid1 valid_a2 rank energy age a1 a2.
Qed.

Lemma potassium_intake_monotone :
  exists o1 o2,
    generate_potassium_outline age gender a1 e1 = Return o1 /\
    generate_potassium_outline age gender a2 e2 = Return o2 /\
    recommended_intake o1 <= recommended_intake o2.
Proof.
  pose proof energy_positive as P2. unfold generate_potassium_outline.
  intake_monotone valid1 valid_a2 rank energy age a1 a2.
Qed.

Lemma selenium_intake_monotone :
  exists o1 o2,
    generate_selenium_outline age gender a1 e1 = Return o1 /\
    generate_selenium_outline age gender a2 e2 = Return o2 /\
    recommended_intake o1 <= recommended_intake o2.
Proof.
  pose proof energy_positive as P2. unfold generate_selenium_outline.
  intake_monotone valid1 valid_a2 rank energy age a1 a2.
Qed.

Lemma sodium_intake_monotone :
  exists o1 o2,
    generate_sodium_outline age gender a1 e1 = Return o1 /\
    generate_sodium_outline age gender a2 e2 = Return o2 /\
    recommended_intake o1 <= recommended_intake o2.
Proof.
  pose proof energy_positive as P2. unfold generate_sodium_outline.
  intake_monotone valid1 valid_a2 rank energy age a1 a2.
Qed.

Lemma zinc_intake_monotone :
  exists o1 o2,
    generate_zinc_outline age gender a1 e1 = Return o1 /\
    generate_zinc_outline age gender a2 e2 = Return o2 /\
    recommended_intake o1 <= recommended_intake o2.
Proof.
  pose proof energy_positive as P2. unfold generate_zinc_outline.
  intake_monotone valid1 valid_a2 rank energy age a1 a2.
Qed.
End Monotone.

(** X5: for every generator, a higher activity level (inactive, low_active,
    active, very_active, in this order) or a higher EER never lowers the
    recommended intake. *)
Theorem recommended_intake_monotone (n : nutrient) (age : Q)
  (gender a1 a2 : string) (e1 e2 : Q) :
  valid_outline_input age gender a1 e1 ->
  valid_activity_level a2 ->
  (activity_rank a1 <= activity_rank a2)%nat ->
  e1 <= e2 ->
  exists o1 o2,
    generator n age gender a1 e1 = Return o1 /\
    generator n age gender a2 e2 = Return o2 /\
    recommended_intake o1 <= recommended_intake o2.
Proof.
  intros V L R E. destruct n; cbv beta iota delta [generator].
  - exact (carbohydrates_intake_monotone age gender a1 a2 e1 e2 V L E).
  - exact (fiber_intake_monotone age gender a1 a2 e1 e2 V L E R).
  - exact (protein_intake_monotone age gender a1 a2 e1 e2 V L E R).
  - exact (fat_intake_monotone age gender a1 a2 e1 e2 V L E).
  - exact (vitamin_a_intake_monotone age gender a1 a2 e1 e2 V L E R).
  - exact (vitamin_c_intake_monotone age gender a1 a2 e1 e2 V L E R).
  - exact (vitamin_d_intake_monotone age gender a1 a2 e1 e2 V L E R).
  - exact (vitamin_b6_intake_monotone age gender a1 a2 e1 e2 V L E R).
  - exact (vitamin_e_intake_monotone age gender a1 a2 e1 e2 V L E R).
  - exact (vitamin_k_intake_monotone age gender a1 a2 e1 e2 V L E R).
  - exact (thiamin_intake_monotone age gender a1 a2 e1 e2 V L E R).
  - exact (vitamin_b12_intake_monotone age gender a1 a2 e1 e2 V L E R).
  - exact (riboflavin_intake_monotone age gender a1 a2 e1 e2 V L E R).
  - exact (folate_intake_monotone age gender a1 a2 e1 e2 V L E R).
  - exact (niacin_intake_monotone age gender a1 a2 e1 e2 V L E R).
  - exact (choline_intake_monotone age gender a1 a2 e1 e2 V L E R).
  - exact (pantothenic_acid_intake_monotone age gender a1 a2 e1 e2 V L E R).
  - exact (biotin_intake_monotone age gender a1 a2 e1 e2 V L E R).
  - exact (calcium_intake_monotone age gender a1 a2 e1 e2 V L E R).
  - exact (chloride_intake_monotone age gender a1 a2 e1 e2 V L E R).
  - exact (chromium_intake_monotone age gender a1 a2 e1 e2 V L E R).
  - exact (copper_intake_monotone age gender a1 a2 e1 e2 V L E R).
  - exact (fluoride_intake_monotone age gender a1 a2 e1 e2 V L E R).
  - exact (iodine_intake_monotone age gender a1 a2 e1 e2 V L E R).
  - exact (iron_intake_monotone age gender a1 a2 e1 e2 V L E R).
  - exact (magnesium_intake_monotone age gender a1 a2 e1 e2 V L E R).
  - exact (manganese_intake_monotone age gender a1 a2 e1 e2 V L E R).
  - exact (molybdenum_intake_monotone age gender a1 a2 e1 e2 V L E R).
  - exact (phosphorus_intake_monotone age gender a1 a2 e1 e2 V L E R).
  - exact (potassium_intake_monotone age gender a1 a2 e1 e2 V L E R).
  - exact (selenium_intake_monotone age gender a1 a2 e1 e2 V L E R).
  - exact (sodium_intake_monotone age gender a1 a2 e1 e2 V L E R).
  - exact (zinc_intake_monotone age gender a1 a2 e1 e2 V L E R).
Qed.

Lemma recommended_intake_monotone_witness :
  exists o1 o2,
    generator N_sodium 25 "M" "active" 2956.17 = Return o1 /\
    generator N_sodium 25 "M" "very_active" 3200 = Return o2 /\
    recommended_intake o1 <= recommended_intake o2.
Proof.
  apply recommended_intake_monotone.
  - exact valid_example_input.
  - right; right; right; left; reflexivity.
  - vm_compute. repeat constructor.
  - apply Qle_bool_iff. reflexivity.
Defined.

(** ** Units, precision and the limits that do not move *)

Lemma nondecreasing_table_get (t : list (string * Q)) (a : string) :
  nondecreasing_table t = true -> valid_activity_level a ->
  exists m, dict_get t a = Return m.
Proof.
  intros T L.
  destruct (nondecreasing_table_spec t a a T L L (le_n _)) as (m & _ & D & _).
  exists m. exact D.
Qed.

(** The multiplier of a valid activity level, kept symbolic. *)
Ltac get_multiplier a L :=
  match goal with
  | |- context [dict_get ?t a] =>
      let m := fresh "m" in
      let D := fresh "D" in
      destruct (nondecreasing_table_get t a eq_refl L) as (m & D);
      rewrite D
  | _ => idtac
  end.

Ltac unfold_generator :=
  cbv beta iota delta [generator];
  match goal with |- context [?g _ _ _ _ = _] => unfold g end.



(** X6: activity level and EER never move the limits that come from the
    reference tables.  For two valid inputs of the same age, the unit is the
    same; the lower limit is the same when the gender is the same (every
    generator but carbohydrates and fat); and the upper limit is the same,
    whatever the genders, for the generators with a fixed upper limit. *)
Theorem limits_fixed_by_age_and_gender (n : nutrient) (age : Q)
  (g1 a1 : string) (e1 : Q) (g2 a2 : string) (e2 : Q) :
  valid_outline_input age g1 a1 e1 ->
  valid_outline_input age g2 a2 e2 ->
  exists o1 o2,
    generator n age g1 a1 e1 = Return o1 /\
    generator n age g2 a2 e2 = Return o2 /\
    units o1 = units o2 /\
    (energy_fraction n = false -> g1 = g2 -> lower_limit o1 = lower_limit o2) /\
    (fixed_upper_limit n = true -> upper_limit o1 = upper_limit o2).
Proof.
  intros V1 V2.
  pose proof (proj1 (proj2 (proj2 V1))) as L1.
  pose proof (proj1 (proj2 (proj2 V2))) as L2.
  destruct n; unfold_generator;
    rewrite (validate_inputs_valid _ _ _ _ V1), (validate_inputs_valid _ _ _ _ V2);
    get_multiplier a1 L1; get_multiplier a2 L2;
    destruct_gender V1; destruct_gender V2;
    match goal with A : valid_age ?a |- _ =>
      rewrite ?(proj2 (Qle_bool_true 14 a) A); split_age a end;
    outline_cbn;
    (eexists; eexists; split; [reflexivity | split; [reflexivity|]]);
    outline_cbn; cbv beta iota delta [energy_fraction fixed_upper_limit];
    (split; [reflexivity|]);
    (split; intros; try discriminate; reflexivity).
Qed.

Lemma limits_fixed_by_age_and_gender_witness :
  exists o1 o2,
    generator N_calcium 25 "M" "active" 2956.17 = Return o1 /\
    generator N_calcium 25 "F" "inactive" 1800 = Return o2 /\
    units o1 = units o2 /\
    (energy_fraction N_calcium = false -> "M" = "F" ->
     lower_limit o1 = lower_limit o2) /\
    (fixed_upper_limit N_calcium = true -> upper_limit o1 = upper_limit o2).
Proof.
  apply limits_fixed_by_age_and_gender; [exact valid_example_input|].
  split; [apply Qle_bool_iff; reflexivity|].
  split; [right; left; reflexivity|].
  split; [left; reflexivity | reflexivity].
Defined.

(** ** Rounding error *)

Lemma round_error (x : Q) : x - (1 # 2) <= round x <= x + (1 # 2).
Proof.
  unfold round, round_half_even.
  pose proof (Qfloor_le x) as L. pose proof (Qlt_floor x) as U.
  rewrite inject_Z_plus in U. change (inject_Z 1) with 1 in U.
  destruct (x - inject_Z (Qfloor x) ?= 1 # 2) eqn:C.
  - rewrite <- Qeq_alt in C.
    destruct (Z.even (Qfloor x));
      [| rewrite inject_Z_plus; change (inject_Z 1) with 1]; lra.
  - rewrite <- Qlt_alt in C. lra.
  - rewrite <- Qgt_alt in C.
    rewrite inject_Z_plus. change (inject_Z 1) with 1. lra.
Qed.

(** ** Carbohydrates and fat as shares of the energy *)

Lemma round_share_mono (k d e1 e2 : Q) :
  0 <= k -> 0 < d -> e1 <= e2 -> round (k * e1 / d) <= round (k * e2 / d).
Proof.
  intros K D E. apply round_mono, Qdiv_le_compat; [exact D|].
  apply Qmult_le_compat_l_nonneg; assumption.
Qed.

Lemma round_share_eq (k d e1 e2 : Q) :
  e1 == e2 -> round (k * e1 / d) = round (k * e2 / d).
Proof. intro E. rewrite E. reflexivity. Qed.

(** X8: the carbohydrate and fat outlines depend on the EER alone.  Two
    valid inputs with the same EER get the same two outlines, whatever their
    ages, genders and activity levels, and a higher EER never lowers any of
    the three values of either outline. *)
Theorem energy_shares (a1 a2 : Q) (g1 g2 l1 l2 : string) (e1 e2 : Q) :
  valid_outline_input a1 g1 l1 e1 ->
  valid_outline_input a2 g2 l2 e2 ->
  e1 <= e2 -> e2 <= float_max ->
  exists c1 c2 f1 f2,
    generate_carbohydrates_outline a1 g1 l1 e1 = Return c1 /\
    generate_carbohydrates_outline a2 g2 l2 e2 = Return c2 /\
    generate_fat_outline a1 g1 l1 e1 = Return f1 /\
    generate_fat_outline a2 g2 l2 e2 = Return f2 /\
    lower_limit c1 <= lower_limit c2 /\
    recommended_intake c1 <= recommended_intake c2 /\
    upper_limit c1 <= upper_limit c2 /\
    lower_limit f1 <= lower_limit f2 /\
    recommended_intake f1 <= recommended_intake f2 /\
    upper_limit f1 <= upper_limit f2 /\
    (e1 == e2 -> c1 = c2 /\ f1 = f2).
Proof.
  intros V1 V2 E _. unfold generate_carbohydrates_outline, generate_fat_outline.
  rewrite (validate_inputs_valid _ _ _ _ V1), (validate_inputs_valid _ _ _ _ V2).
  cbn [bind].
  do 4 eexists. do 4 (split; [reflexivity|]).
  cbn [recommended_intake lower_limit upper_limit].
  repeat (split; [apply round_share_mono;
                    [apply Qle_bool_iff; reflexivity | reflexivity | exact E]|]).
  intro Q.
  rewrite (round_share_eq 0.55 4 e1 e2 Q), (round_share_eq 0.45 4 e1 e2 Q),
    (round_share_eq 0.65 4 e1 e2 Q), (round_share_eq 0.275 9 e1 e2 Q),
    (round_share_eq 0.2 9 e1 e2 Q), (round_share_eq 0.35 9 e1 e2 Q).
  split; reflexivity.
Qed.

Lemma valid_second_input : valid_outline_input 60 "F" "inactive" 3200.
Proof.
  split; [apply Qle_bool_iff; reflexivity|].
  split; [right; left; reflexivity|].
  split; [left; reflexivity | reflexivity].
Defined.

Lemma energy_shares_witness :
  exists c1 c2 f1 f2,
    generate_carbohydrates_outline 25 "M" "active" 2956.17 = Return c1 /\
    generate_carbohydrates_outline 60 "F" "inactive" 3200 = Return c2 /\
    generate_fat_outline 25 "M" "active" 2956.17 = Return f1 /\
    generate_fat_outline 60 "F" "inactive" 3200 = Return f2 /\
    lower_limit c1 <= lower_limit c2 /\
    recommended_intake c1 <= recommended_intake c2 /\
    upper_limit c1 <= upper_limit c2 /\
    lower_limit f1 <= lower_limit f2 /\
    recommended_intake f1 <= recommended_intake f2 /\
    upper_limit f1 <= upper_limit f2 /\
    (2956.17 == 3200 -> c1 = c2 /\ f1 = f2).
Proof.
  apply energy_shares;
    [exact valid_example_input | exact valid_second_input
    | apply Qle_bool_iff; reflexivity
    | apply Qle_bool_iff; vm_compute; reflexivity].
Defined.

(** ** Fiber follows the energy *)

Lemma py_max_right (a b : Q) : a < b -> py_max a b = b.
Proof.
  intro H. unfold py_max. rewrite (proj2 (Qlt_bool_true a b) H). reflexivity.
Qed.

Lemma fiber_per_energy (eer : Q) : 3258 <= eer -> 45.6 < eer / 1000 * 14.
Proof.
  intro H.
  assert (E : eer / 1000 * 14 == eer * (7 # 500)) by field.
  rewrite E. lra.
Qed.

(** From an EER of 3258 kcal on, the energy term of the fiber generator is
    above every base intake times its multiplier (45.6 g at most). *)
Lemma fiber_high_energy (age : Q) (gender activity_level : string) (eer : Q) :
  valid_outline_input age gender activity_level eer ->
  3258 <= eer ->
  exists o,
    generate_fiber_outline age gender activity_level eer = Return o /\
    recommended_intake o = round (eer / 1000 * 14) /\
    upper_limit o = round (1.5 * round (eer / 1000 * 14)).
Proof.
  intros V H. unfold generate_fiber_outline.
  rewrite (validate_inputs_valid _ _ _ _ V).
  destruct_valid V;
    match goal with A : valid_age ?a |- _ =>
      rewrite ?(proj2 (Qle_bool_true 14 a) A); split_age a end;
    outline_cbn;
    (eexists; split; [reflexivity|]); outline_cbn;
    match goal with
    | |- round (py_max ?c ?e) = _ /\ _ =>
        rewrite (py_max_right c e);
          [split; reflexivity
          | apply Qle_lt_trans with 45.6;
              [closed_Qle | apply fiber_per_energy, H]]
    end.
Qed.

(** X9: from an EER of 3258 kcal on, the fiber generator follows the energy
    alone: two valid inputs with the same EER get the same recommended
    intake and the same upper limit, whatever their ages, genders and
    activity levels, and the recommended intake is at least 46 g. *)
Theorem fiber_follows_energy (a1 a2 : Q) (g1 g2 l1 l2 : string) (eer : Q) :
  valid_outline_input a1 g1 l1 eer ->
  valid_outline_input a2 g2 l2 eer ->
  3258 <= eer -> eer <= float_max ->
  exists o1 o2,
    generate_fiber_outline a1 g1 l1 eer = Return o1 /\
    generate_fiber_outline a2 g2 l2 eer = Return o2 /\
    recommended_intake o1 = recommended_intake o2 /\
    upper_limit o1 = upper_limit o2 /\
    46 <= recommended_intake o1.
Proof.
  intros V1 V2 H _.
  destruct (fiber_high_energy _ _ _ _ V1 H) as (o1 & E1 & R1 & U1).
  destruct (fiber_high_energy _ _ _ _ V2 H) as (o2 & E2 & R2 & U2).
  exists o1, o2. split; [exact E1|]. split; [exact E2|].
  split; [congruence|]. split; [congruence|].
  rewrite R1. change 46 with (round 45.6). apply round_mono.
  apply Qlt_le_weak, fiber_per_energy, H.
Qed.

Lemma valid_high_energy_input : valid_outline_input 25 "M" "active" 3500.
Proof.
  split; [apply Qle_bool_iff; reflexivity|].
  split; [left; reflexivity|].
  split; [right; right; left; reflexivity | reflexivity].
Defined.

Lemma valid_high_energy_adolescent : valid_outline_input 16 "F" "very_active" 3500.
Proof.
  split; [apply Qle_bool_iff; reflexivity|].
  split; [right; left; reflexivity|].
  split; [right; right; right; left; reflexivity | reflexivity].
Defined.

Lemma fiber_follows_energy_witness :
  exists o1 o2,
    generate_fiber_outline 25 "M" "active" 3500 = Return o1 /\
    generate_fiber_outline 16 "F" "very_active" 3500 = Return o2 /\
    recommended_intake o1 = recommended_intake o2 /\
    upper_limit o1 = upper_limit o2 /\
    46 <= recommended_intake o1.
Proof.
  apply fiber_follows_energy;
    [exact valid_high_energy_input | exact valid_high_energy_adolescent
    | apply Qle_bool_iff; reflexivity
    | apply Qle_bool_iff; vm_compute; reflexivity].
Defined.

(** ** Which check fails *)

(** X10: the checks run in the order age, gender, activity level, EER, and
    the first one that fails gives the message: this is so for each of the
    33 generators. *)
Theorem generator_first_failing_check (n : nutrient) (age : Q)
  (gender activity_level : string) (eer : Q) :
  (age < 14 ->
   generator n age gender activity_level eer
     = Raise (ValueError "Age must be at least 14 years")) /\
  (14 <= age -> ~ valid_gender gender ->
   generator n age gender activity_level eer
     = Raise (ValueError "Gender must be 'M' for male or 'F' for female")) /\
  (14 <= age -> valid_gender gender ->
   ~ valid_activity_level activity_level ->
   generator n age gender activity_level eer
     = Raise (ValueError "Activity level must be one of: 'inactive', 'low_active', 'active', 'very_active'")) /\
  (14 <= age -> valid_gender gender ->
   valid_activity_level activity_level -> eer <= 0 ->
   generator n age gender activity_level eer
     = Raise (ValueError "EER must be a positive value")).
Proof.
  repeat split; intros; apply generator_validates; unfold validate_inputs;
    repeat match goal with
    | H : _ < _ |- _ => apply Qle_bool_false in H; rewrite H; clear H
    | H : _ <= 0 |- _ => apply Qlt_bool_false in H; rewrite H; clear H
    | H : 14 <= _ |- _ => apply Qle_bool_true in H; rewrite H; clear H
    | H : valid_gender _ |- _ => apply str_in_In in H; rewrite H; clear H
    | H : valid_activity_level _ |- _ => apply str_in_In in H; rewrite H; clear H
    | H : ~ valid_gender _ |- _ => apply str_in_not_In in H; rewrite H; clear H
    | H : ~ valid_activity_level _ |- _ =>
        apply str_in_not_In in H; rewrite H; clear H
    end; reflexivity.
Qed.

(** X11: calc_EER runs its checks in the order age, gender, activity level;
    the first one that fails gives the message, and the aggregator raises
    the same error. *)
Theorem calc_EER_first_failing_check
  (age height weight : Q) (gender activity_level : string) :
  (age < 14 ->
   calc_EER age height weight gender activity_level
     = Raise (ValueError "Age must be at least 14 years") /\
   generate_nutritional_guideline age height weight gender activity_level
     = Raise (ValueError "Age must be at least 14 years")) /\
  (14 <= age -> ~ valid_gender gender ->
   calc_EER age height weight gender activity_level
     = Raise (ValueError "Gender must be 'M' for male or 'F' for female") /\
   generate_nutritional_guideline age height weight gender activity_level
     = Raise (ValueError "Gender must be 'M' for male or 'F' for female")) /\
  (14 <= age -> valid_gender gender ->
   ~ valid_activity_level activity_level ->
   calc_EER age height weight gender activity_level
     = Raise (ValueError "Activity level must be one of: 'inactive', 'low_active', 'active', 'very_active'") /\
   generate_nutritional_guideline age height weight gender activity_level
     = Raise (ValueError "Activity level must be one of: 'inactive', 'low_active', 'active', 'very_active'")).
Proof.
  repeat split; intros;
    try apply guideline_invalid; unfold calc_EER;
    repeat match goal with
    | H : _ < _ |- _ => apply Qle_bool_false in H; rewrite H; clear H
    | H : 14 <= _ |- _ => apply Qle_bool_true in H; rewrite H; clear H
    | H : valid_gender _ |- _ => apply str_in_In in H; rewrite H; clear H
    | H : ~ valid_gender _ |- _ => apply str_in_not_In in H; rewrite H; clear H
    | H : ~ valid_activity_level _ |- _ =>
        apply str_in_not_In in H; rewrite H; clear H
    end; reflexivity.
Qed.

(** ** The energy requirement grows with height and weight *)

Ltac eer_cases V :=
  let A := fresh "Hage" in
  let G := fresh "Hgender" in
  let L := fresh "Hactivity" in
  destruct V as (A & G & L);
  unfold valid_gender, valid_activity_level, genders, activity_levels in G, L;
  simpl in G, L;
  destruct G as [G|[G|[]]]; destruct L as [L|[L|[L|[L|[]]]]];
  symmetry in G, L; subst.


Lemma valid_example_profile : valid_eer_input 25 "M" "active".
Proof.
  split; [apply Qle_bool_iff; reflexivity|].
  split; [left; reflexivity | right; right; left; reflexivity].
Defined.




(** ** Profiles on which the aggregator returns *)

Lemma guideline_returns_of_positive_eer
  age height weight gender activity_level eer :
  valid_eer_input age gender activity_level ->
  calc_EER age height weight gender activity_level = Return eer ->
  0 < eer ->
  returns (generate_nutritional_guideline age height weight gender activity_level).
Proof.
  intros (A & G & L) E P.
  assert (F : forall n, returns (generator n age gender activity_level eer)).
  { intro n. apply generator_returns. repeat split; assumption. }
  eexists. apply (guideline_assembled _ _ _ _ _ _ E F).
Qed.

(** X14: for a valid profile with age at most 120, height from 100 to
    300 cm and weight from 30 to 1000 kg, calc_EER is above 300 kcal/day,
    and generate_nutritional_guideline returns. *)
Theorem calc_EER_positive (age height weight : Q) (gender activity_level : string) :
  valid_eer_input age gender activity_level ->
  age <= 120 -> 100 <= height <= 300 -> 30 <= weight <= 1000 ->
  exists v,
    calc_EER age height weight gender activity_level = Return v /\
    300 < v <= 50000 /\
    returns (generate_nutritional_guideline age height weight gender activity_level).
Proof.
  intros V A [H H'] [W W'].
  assert (P : exists v,
             calc_EER age height weight gender activity_level = Return v /\
             300 < v <= 50000).
  { destruct (calc_EER_valid age height weight _ _ V) as (E & _).
    rewrite E. clear E.
    destruct ((14 <=? age) && (age <? 19)) eqn:B.
    - apply andb_true_iff in B. destruct B as [B1 B2].
      apply Qle_bool_true in B1. apply Qlt_bool_true in B2.
      eer_cases V; (eexists; split; [reflexivity | lra]).
    - eer_cases V; unfold valid_age in *;
        (eexists; split; [reflexivity | lra]). }
  destruct P as (v & E & P). exists v. split; [exact E|]. split; [exact P|].
  apply (guideline_returns_of_positive_eer _ _ _ _ _ v V E). lra.
Qed.

Lemma calc_EER_positive_witness :
  exists v,
    calc_EER 25 170 70 "M" "active" = Return v /\
    300 < v <= 50000 /\
    returns (generate_nutritional_guideline 25 170 70 "M" "active").
Proof.
  apply calc_EER_positive;
    [exact valid_example_profile | apply Qle_bool_iff; reflexivity
    | split; apply Qle_bool_iff; reflexivity
    | split; apply Qle_bool_iff; reflexivity].
Defined.

Lemma generator_returns_valid (n : nutrient) age gender activity_level eer :
  returns (generator n age gender activity_level eer) ->
  valid_outline_input age gender activity_level eer.
Proof.
  intros [o E].
  destruct (valid_or_invalid_outline_input age gender activity_level eer)
    as [V|I]; [exact V|].
  destruct (validate_inputs_invalid _ _ _ _ I) as [m R].
  apply (generator_validates n) in R. congruence.
Qed.

Lemma assemble_entries (f : nutrient -> outline) section entries key o :
  In (section, entries) (assemble f) -> In (key, o) entries ->
  exists n, o = f n /\ section = section_of n /\ key = key_of n.
Proof.
  unfold assemble. simpl.
  intros [S|[S|[S|[]]]] I; injection S as <- <-; simpl in I;
    repeat (destruct I as [I|I];
            [injection I as <- <-; eexists; repeat split; reflexivity|]);
    destruct I.
Qed.

(** X15: when generate_nutritional_guideline returns, calc_EER returned a
    positive EER, every entry of the result is the outline the standalone
    generator returns at that EER, and every outline in the result satisfies
    lower_limit <= recommended_intake <= upper_limit. *)
Theorem guideline_returns_ordered_outlines
  (age height weight : Q) (gender activity_level : string) (g : guideline) :
  generate_nutritional_guideline age height weight gender activity_level
    = Return g ->
  (exists eer,
     calc_EER age height weight gender activity_level = Return eer /\
     0 < eer /\
     forall n,
       exists o,
         generator n age gender activity_level eer = Return o /\
         entry g (section_of n) (key_of n) = Some o) /\
  (forall section entries key o,
     In (section, entries) g -> In (key, o) entries ->
     lower_limit o <= recommended_intake o <= upper_limit o).
Proof.
  intro H.
  destruct (guideline_returns_inv _ _ _ _ _ _ H) as (eer & E & F & ->).
  split.
  - exists eer. split; [exact E|]. split.
    + apply (generator_returns_valid N_carbohydrates _ _ _ _ (F N_carbohydrates)).
    + intro n. exists (returned (generator n age gender activity_level eer)).
      split; [apply returned_Return, F|].
      apply (entry_assemble
               (fun n => returned (generator n age gender activity_level eer))).
  - intros section entries key o S K.
    destruct (assemble_entries _ _ _ _ _ S K) as (n & -> & _).
    pose proof (generator_returns_valid n _ _ _ _ (F n)) as V.
    destruct (generator_well_ordered n _ _ _ _ V) as (o & R & W).
    rewrite R. exact W.
Qed.

Lemma guideline_returns_ordered_outlines_witness :
  exists g,
    generate_nutritional_guideline 25 170 70 "M" "active" = Return g /\
    (exists eer,
       calc_EER 25 170 70 "M" "active" = Return eer /\
       0 < eer /\
       forall n,
         exists o,
           generator n 25 "M" "active" eer = Return o /\
           entry g (section_of n) (key_of n) = Some o) /\
    (forall section entries key o,
       In (section, entries) g -> In (key, o) entries ->
       lower_limit o <= recommended_intake o <= upper_limit o).
Proof.
  assert (E : exists g,
             generate_nutritional_guideline 25 170 70 "M" "active" = Return g)
    by (eexists; vm_compute; reflexivity).
  destruct E as [g E]. exists g. split; [exact E|].
  exact (guideline_returns_ordered_outlines 25 170 70 "M" "active" g E).
Defined.
